(** * WebRTCam: the media bridge pipeline and the gadget device lifecycle

    A shallow embedding of [src/modules/media_pipeline.py] and
    [src/modules/usb_gadget.py].  Python objects become records, methods
    become computations in a small state-and-exception monad, the asyncio
    event loop becomes a table of tasks, and the operating system (device
    nodes, the codec library, the clock) is an explicit environment that
    each method receives as an argument.

    Floating-point numbers are modelled by exact rationals ([Q]); object
    identity of tracks, tasks and file objects by natural numbers. *)

From Stdlib Require Import List String Ascii Bool Arith Lia ZArith QArith Qround Lqa.
From Stdlib Require Import Decimal DecimalString.
Import ListNotations.
Local Open Scope string_scope.
Local Open Scope nat_scope.
Local Open Scope list_scope.

(** ** Python's control effects *)

Module Py.

(** [CancelledError] derives from [BaseException]; everything else the
    modules can meet derives from [Exception]. *)
Inductive exn : Type :=
| Exception (what : string)
| CancelledError.

Definition is_Exception (e : exn) : bool :=
  match e with Exception _ => true | CancelledError => false end.

Definition is_CancelledError (e : exn) : bool :=
  match e with CancelledError => true | Exception _ => false end.

Definition bare_except (e : exn) : bool := true.

Inductive outcome (A : Type) : Type :=
| Ret (a : A)
| Raise (e : exn).
Arguments Ret {A} a.
Arguments Raise {A} e.

(** A computation reads and writes the store [S]; the store survives a
    raised exception, as attribute assignments do in Python. *)
Definition M (S A : Type) : Type := S -> outcome A * S.

Definition ret {S A} (a : A) : M S A := fun s => (Ret a, s).

Definition bind {S A B} (c : M S A) (k : A -> M S B) : M S B :=
  fun s => match c s with
           | (Ret a, s') => k a s'
           | (Raise e, s') => (Raise e, s')
           end.

Definition raise {S A} (e : exn) : M S A := fun s => (Raise e, s).

Definition gets {S A} (f : S -> A) : M S A := fun s => (Ret (f s), s).

Definition modify {S} (f : S -> S) : M S unit := fun s => (Ret tt, f s).

(** [try: body / except <catches>: handler]. *)
Definition try_except {S A} (catches : exn -> bool)
           (body : M S A) (handler : exn -> M S A) : M S A :=
  fun s => match body s with
           | (Ret a, s') => (Ret a, s')
           | (Raise e, s') => if catches e then handler e s' else (Raise e, s')
           end.

End Py.

Import Py.

Declare Scope py_scope.
Delimit Scope py_scope with py.
Notation "x <- c ;; k" := (Py.bind c (fun x => k))
  (at level 61, c at next level, right associativity) : py_scope.
Notation "c ;; k" := (Py.bind c (fun _ => k))
  (at level 61, right associativity) : py_scope.
Local Open Scope py_scope.

(** ** [collections.deque] with [maxlen] *)

Module Deque.

Record t (A : Type) : Type := mk { items : list A; maxlen : nat }.
Arguments mk {A} items maxlen.
Arguments items {A} _.
Arguments maxlen {A} _.

Definition new {A} (maxlen : nat) : t A := mk [] maxlen.

Definition len {A} (d : t A) : nat := List.length (items d).

(** A bounded deque that is full discards from the left end on [append]. *)
Definition append {A} (x : A) (d : t A) : t A :=
  let l := items d ++ [x] in
  mk (if maxlen d <? List.length l then tl l else l) (maxlen d).

(** [popleft] raises [IndexError] on an empty deque: [None] here. *)
Definition popleft {A} (d : t A) : option (A * t A) :=
  match items d with
  | [] => None
  | x :: l => Some (x, mk l (maxlen d))
  end.

Definition clear {A} (d : t A) : t A := mk [] (maxlen d).

(** Truth value of a deque: non-empty. *)
Definition truthy {A} (d : t A) : bool :=
  match items d with [] => false | _ :: _ => true end.

End Deque.

(** ** Data model *)

Definition bytes := list nat.

(** Decoded samples handed over by the transport; opaque to the bridge. *)
Definition frame := nat.

(** Track objects, compared by identity. *)
Definition track := nat.

Record Config : Type := mkConfig {
  VIDEO_WIDTH : nat;
  VIDEO_HEIGHT : nat;
  VIDEO_FRAMERATE : nat;
  VIDEO_CODEC : string;
  AUDIO_ENABLED : bool;
  AUDIO_CHANNELS : nat;
  AUDIO_SAMPLE_RATE : nat;
  USB_GADGET_PATH : string;
  UVC_DEVICE_NAME : string;
  PIPELINE_BUFFER_SIZE : nat
}.

(** The class attributes of [Config] in [src/config.py]. *)
Definition default_config : Config :=
  {| VIDEO_WIDTH := 1280; VIDEO_HEIGHT := 720; VIDEO_FRAMERATE := 30;
     VIDEO_CODEC := "H264"; AUDIO_ENABLED := true; AUDIO_CHANNELS := 1;
     AUDIO_SAMPLE_RATE := 48000;
     USB_GADGET_PATH := "/sys/kernel/config/usb_gadget/webrtcam";
     UVC_DEVICE_NAME := "WebRTCam Video";
     PIPELINE_BUFFER_SIZE := 5 |}.

(** An [av.CodecContext]: the codec it was created for and the attributes
    assigned to it afterwards, most recent first. *)
Inductive attr : Type := AInt (n : nat) | AStr (s : string).

Record CodecContext : Type := mkCodec {
  codec_name : string;
  codec_mode : string;
  codec_attrs : list (string * attr)
}.

Definition setattr (k : string) (v : attr) (c : CodecContext) : CodecContext :=
  mkCodec (codec_name c) (codec_mode c) ((k, v) :: codec_attrs c).

(** *** The asyncio event loop: one entry per created task *)

Inductive coro : Type := ProcessVideo | ProcessAudio.

Inductive task_state : Type := Pending | Cancelled | Finished.

Record task : Type := mkTask { task_coro : coro; task_st : task_state }.

Definition task_id := nat.

(** *** [MediaPipeline] *)

Record VideoStats : Type := mkVideoStats {
  frames_received : nat;
  frames_dropped : nat;
  last_frame_time : Q;
  current_fps : Q
}.

Record AudioStats : Type := mkAudioStats {
  samples_received : nat;
  samples_dropped : nat;
  last_sample_time : Q
}.

Inductive gadget_ref : Type := TheGadget.

Record MediaPipeline : Type := mkPipeline {
  config : Config;
  running : bool;
  usb_gadget : option gadget_ref;
  video_track : option track;
  video_frame_queue : Deque.t frame;
  video_stats : VideoStats;
  audio_track : option track;
  audio_sample_queue : Deque.t frame;
  audio_stats : AudioStats;
  video_encoder : option CodecContext;
  video_decoder : option CodecContext;
  audio_encoder : option CodecContext;
  audio_decoder : option CodecContext;
  video_task : option task_id;
  audio_task : option task_id
}.

(** *** [USBGadget] *)

(** An open file object: the descriptor it was given and its path. *)
Record handle : Type := mkHandle { fd : nat; h_path : string }.

Record USBGadget : Type := mkGadget {
  g_config : Config;
  video_device : option handle;
  audio_device : option handle;
  g_running : bool;
  gadget_configured : bool
}.

(** *** The world: both objects, the event loop and the kernel side *)

(** The gadget object with what the kernel holds for it. *)
Record gworld : Type := mkGWorld {
  gadget : USBGadget;
  open_files : list handle;            (* files open in the process *)
  next_fd : nat;
  dev_written : list (handle * bytes); (* payloads whose write and flush
                                          both returned normally *)
  udc_writes : list string             (* values written to the UDC attribute *)
}.

Record world : Type := mkWorld {
  pipeline : MediaPipeline;
  loop : list task;
  devs : gworld
}.

(** Attribute assignment on the objects of the world. *)

Definition set_pipeline (p : MediaPipeline) (w : world) : world :=
  mkWorld p (loop w) (devs w).
Definition set_loop (l : list task) (w : world) : world :=
  mkWorld (pipeline w) l (devs w).
Definition set_devs (g : gworld) (w : world) : world :=
  mkWorld (pipeline w) (loop w) g.

Definition set_gadget (g : USBGadget) (w : gworld) : gworld :=
  mkGWorld g (open_files w) (next_fd w) (dev_written w) (udc_writes w).
Definition set_open_files (fs : list handle) (w : gworld) : gworld :=
  mkGWorld (gadget w) fs (next_fd w) (dev_written w) (udc_writes w).
Definition set_next_fd (n : nat) (w : gworld) : gworld :=
  mkGWorld (gadget w) (open_files w) n (dev_written w) (udc_writes w).
Definition set_dev_written (l : list (handle * bytes)) (w : gworld) : gworld :=
  mkGWorld (gadget w) (open_files w) (next_fd w) l (udc_writes w).
Definition set_udc_writes (l : list string) (w : gworld) : gworld :=
  mkGWorld (gadget w) (open_files w) (next_fd w) (dev_written w) l.

Definition set_video_device (h : option handle) (g : USBGadget) : USBGadget :=
  mkGadget (g_config g) h (audio_device g) (g_running g) (gadget_configured g).
Definition set_audio_device (h : option handle) (g : USBGadget) : USBGadget :=
  mkGadget (g_config g) (video_device g) h (g_running g) (gadget_configured g).
Definition set_g_running (b : bool) (g : USBGadget) : USBGadget :=
  mkGadget (g_config g) (video_device g) (audio_device g) b (gadget_configured g).
Definition set_gadget_configured (b : bool) (g : USBGadget) : USBGadget :=
  mkGadget (g_config g) (video_device g) (audio_device g) (g_running g) b.

Definition set_running (b : bool) (p : MediaPipeline) : MediaPipeline :=
  mkPipeline (config p) b (usb_gadget p) (video_track p) (video_frame_queue p)
    (video_stats p) (audio_track p) (audio_sample_queue p) (audio_stats p)
    (video_encoder p) (video_decoder p) (audio_encoder p) (audio_decoder p)
    (video_task p) (audio_task p).
Definition set_usb_gadget_ref (g : option gadget_ref) (p : MediaPipeline) : MediaPipeline :=
  mkPipeline (config p) (running p) g (video_track p) (video_frame_queue p)
    (video_stats p) (audio_track p) (audio_sample_queue p) (audio_stats p)
    (video_encoder p) (video_decoder p) (audio_encoder p) (audio_decoder p)
    (video_task p) (audio_task p).
Definition set_video_track (t : option track) (p : MediaPipeline) : MediaPipeline :=
  mkPipeline (config p) (running p) (usb_gadget p) t (video_frame_queue p)
    (video_stats p) (audio_track p) (audio_sample_queue p) (audio_stats p)
    (video_encoder p) (video_decoder p) (audio_encoder p) (audio_decoder p)
    (video_task p) (audio_task p).
Definition set_video_frame_queue (q : Deque.t frame) (p : MediaPipeline) : MediaPipeline :=
  mkPipeline (config p) (running p) (usb_gadget p) (video_track p) q
    (video_stats p) (audio_track p) (audio_sample_queue p) (audio_stats p)
    (video_encoder p) (video_decoder p) (audio_encoder p) (audio_decoder p)
    (video_task p) (audio_task p).
Definition set_video_stats (s : VideoStats) (p : MediaPipeline) : MediaPipeline :=
  mkPipeline (config p) (running p) (usb_gadget p) (video_track p) (video_frame_queue p)
    s (audio_track p) (audio_sample_queue p) (audio_stats p)
    (video_encoder p) (video_decoder p) (audio_encoder p) (audio_decoder p)
    (video_task p) (audio_task p).
Definition set_audio_track (t : option track) (p : MediaPipeline) : MediaPipeline :=
  mkPipeline (config p) (running p) (usb_gadget p) (video_track p) (video_frame_queue p)
    (video_stats p) t (audio_sample_queue p) (audio_stats p)
    (video_encoder p) (video_decoder p) (audio_encoder p) (audio_decoder p)
    (video_task p) (audio_task p).
Definition set_audio_sample_queue (q : Deque.t frame) (p : MediaPipeline) : MediaPipeline :=
  mkPipeline (config p) (running p) (usb_gadget p) (video_track p) (video_frame_queue p)
    (video_stats p) (audio_track p) q (audio_stats p)
    (video_encoder p) (video_decoder p) (audio_encoder p) (audio_decoder p)
    (video_task p) (audio_task p).
Definition set_audio_stats (s : AudioStats) (p : MediaPipeline) : MediaPipeline :=
  mkPipeline (config p) (running p) (usb_gadget p) (video_track p) (video_frame_queue p)
    (video_stats p) (audio_track p) (audio_sample_queue p) s
    (video_encoder p) (video_decoder p) (audio_encoder p) (audio_decoder p)
    (video_task p) (audio_task p).
Definition set_video_encoder (c : option CodecContext) (p : MediaPipeline) : MediaPipeline :=
  mkPipeline (config p) (running p) (usb_gadget p) (video_track p) (video_frame_queue p)
    (video_stats p) (audio_track p) (audio_sample_queue p) (audio_stats p)
    c (video_decoder p) (audio_encoder p) (audio_decoder p)
    (video_task p) (audio_task p).
Definition set_video_decoder (c : option CodecContext) (p : MediaPipeline) : MediaPipeline :=
  mkPipeline (config p) (running p) (usb_gadget p) (video_track p) (video_frame_queue p)
    (video_stats p) (audio_track p) (audio_sample_queue p) (audio_stats p)
    (video_encoder p) c (audio_encoder p) (audio_decoder p)
    (video_task p) (audio_task p).
Definition set_audio_encoder (c : option CodecContext) (p : MediaPipeline) : MediaPipeline :=
  mkPipeline (config p) (running p) (usb_gadget p) (video_track p) (video_frame_queue p)
    (video_stats p) (audio_track p) (audio_sample_queue p) (audio_stats p)
    (video_encoder p) (video_decoder p) c (audio_decoder p)
    (video_task p) (audio_task p).
Definition set_audio_decoder (c : option CodecContext) (p : MediaPipeline) : MediaPipeline :=
  mkPipeline (config p) (running p) (usb_gadget p) (video_track p) (video_frame_queue p)
    (video_stats p) (audio_track p) (audio_sample_queue p) (audio_stats p)
    (video_encoder p) (video_decoder p) (audio_encoder p) c
    (video_task p) (audio_task p).
Definition set_video_task (t : option task_id) (p : MediaPipeline) : MediaPipeline :=
  mkPipeline (config p) (running p) (usb_gadget p) (video_track p) (video_frame_queue p)
    (video_stats p) (audio_track p) (audio_sample_queue p) (audio_stats p)
    (video_encoder p) (video_decoder p) (audio_encoder p) (audio_decoder p)
    t (audio_task p).
Definition set_audio_task (t : option task_id) (p : MediaPipeline) : MediaPipeline :=
  mkPipeline (config p) (running p) (usb_gadget p) (video_track p) (video_frame_queue p)
    (video_stats p) (audio_track p) (audio_sample_queue p) (audio_stats p)
    (video_encoder p) (video_decoder p) (audio_encoder p) (audio_decoder p)
    (video_task p) t.

(** [self.<field> = v] inside a method of either object. *)
Definition self_p (f : MediaPipeline -> MediaPipeline) : M world unit :=
  modify (fun w => set_pipeline (f (pipeline w)) w).
Definition self_g (f : USBGadget -> USBGadget) : M gworld unit :=
  modify (fun w => set_gadget (f (gadget w)) w).

(** A call into the gadget object from the bridge. *)
Definition call_gadget {A} (c : M gworld A) : M world A :=
  fun w => let (r, g) := c (devs w) in (r, set_devs g w).

(** Truth value of an object reference: [None] is false, objects are true. *)
Definition is_some {A} (o : option A) : bool :=
  match o with Some _ => true | None => false end.

(** [str(i)] for a non-negative integer. *)
Definition str (n : nat) : string := NilZero.string_of_uint (Nat.to_uint n).

(** [range(n)]. *)
Definition range (n : nat) : list nat := seq 0 n.

(** The constructors [MediaPipeline(config)] and [USBGadget(config)]. *)
Definition MediaPipeline_init (cfg : Config) : MediaPipeline :=
  {| config := cfg; running := false; usb_gadget := None;
     video_track := None;
     video_frame_queue := Deque.new (PIPELINE_BUFFER_SIZE cfg);
     video_stats := mkVideoStats 0 0 0%Q 0%Q;
     audio_track := None;
     audio_sample_queue := Deque.new (PIPELINE_BUFFER_SIZE cfg * 10);
     audio_stats := mkAudioStats 0 0 0%Q;
     video_encoder := None; video_decoder := None;
     audio_encoder := None; audio_decoder := None;
     video_task := None; audio_task := None |}.

Definition USBGadget_init (cfg : Config) : USBGadget :=
  {| g_config := cfg; video_device := None; audio_device := None;
     g_running := false; gadget_configured := false |}.

(** [WebRTCamApp(config)]: both objects share the one configuration. *)
Definition boot (cfg : Config) : world :=
  {| pipeline := MediaPipeline_init cfg; loop := [];
     devs := {| gadget := USBGadget_init cfg; open_files := []; next_fd := 3;
                dev_written := []; udc_writes := [] |} |}.

(** ** [USBGadget]: the gadget device lifecycle *)

Module Gadget.

(** What the operating system answers while one method runs. *)
Record env : Type := mkEnv {
  geteuid : nat;
  path_exists : string -> bool;        (* os.path.exists *)
  open_ok : string -> bool;            (* open(path, "wb") does not raise *)
  querycap : string -> option string;  (* VIDIOC_QUERYCAP: the card name;
                                          None when the query raises *)
  close_ok : handle -> bool;           (* close() does not raise *)
  configfs_writes_ok : bool;           (* every makedirs/write/symlink of
                                          _configure_gadget goes through *)
  listdir : string -> list string;     (* os.listdir *)
  udc_write_ok : bool                  (* writing the UDC attribute *)
}.

(** The outcome of one [write] followed by one [flush] on a device node. *)
Record dev_io : Type := mkDevIo { write_ok : bool; flush_ok : bool }.

(** [open(path, "wb")]. *)
Definition open_file (e : env) (path : string) : M gworld handle :=
  fun w =>
    if open_ok e path then
      let h := mkHandle (next_fd w) path in
      (Ret h, set_next_fd (S (next_fd w)) (set_open_files (h :: open_files w) w))
    else (Raise (Exception "OSError"), w).

Definition handle_eqb (a b : handle) : bool :=
  (fd a =? fd b) && String.eqb (h_path a) (h_path b).

(** [f.close()]: the descriptor is released whether or not the final
    flush raises. *)
Definition close_file (e : env) (h : handle) : M gworld unit :=
  fun w =>
    let w' := set_open_files
                (filter (fun x => negb (handle_eqb x h)) (open_files w)) w in
    if close_ok e h then (Ret tt, w') else (Raise (Exception "OSError"), w').

(** Dropping the last reference to a file object finalises it, and
    CPython closes its descriptor at once.  The device attributes hold
    the only reference to their file, so assigning a freshly opened file
    to one of them releases the file it held before. *)
Definition finalise (old : option handle) (kept : handle) (files : list handle)
  : list handle :=
  match old with
  | Some o => if handle_eqb o kept then files
              else filter (fun x => negb (handle_eqb x o)) files
  | None => files
  end.

(** [self.video_device = f] and [self.audio_device = f] for a file [f]
    that was just opened. *)
Definition assign_video_device (h : handle) : M gworld unit :=
  modify (fun w =>
    set_gadget (set_video_device (Some h) (gadget w))
      (set_open_files (finalise (video_device (gadget w)) h (open_files w)) w)).

Definition assign_audio_device (h : handle) : M gworld unit :=
  modify (fun w =>
    set_gadget (set_audio_device (Some h) (gadget w))
      (set_open_files (finalise (audio_device (gadget w)) h (open_files w)) w)).

Definition ioctl_querycap (e : env) (h : handle) : M gworld string :=
  match querycap e (h_path h) with
  | Some card => ret card
  | None => raise (Exception "OSError")
  end.

(** The first loop of [_find_existing_gadgets]; the list is what is left
    of [range(10)]. *)
Fixpoint find_existing_video (e : env) (is_ : list nat) : M gworld unit :=
  match is_ with
  | [] => ret tt
  | i :: rest =>
    let video_path := ("/dev/video" ++ str i)%string in
    if path_exists e video_path then
      opened <- try_except is_Exception
                  (h <- open_file e video_path ;;
                   assign_video_device h ;;
                   ret true)
                  (fun _ => ret false) ;;
      if opened then ret tt             (* break *)
      else find_existing_video e rest   (* continue *)
    else find_existing_video e rest
  end.

(** The audio loop, shared in shape by [_find_existing_gadgets] and
    [_open_devices]: [true] when it left through [break]. *)
Fixpoint open_audio (e : env) (is_ : list nat) : M gworld bool :=
  match is_ with
  | [] => ret false
  | i :: rest =>
    let audio_path := ("/dev/snd/pcmC" ++ str i ++ "D0p")%string in
    if path_exists e audio_path then
      opened <- try_except is_Exception
                  (h <- open_file e audio_path ;;
                   assign_audio_device h ;;
                   ret true)
                  (fun _ => ret false) ;;
      if opened then ret true
      else open_audio e rest
    else open_audio e rest
  end.

Definition _find_existing_gadgets (e : env) : M gworld bool :=
  try_except is_Exception
    (find_existing_video e (range 10) ;;
     _ <- open_audio e (range 10) ;;
     gets (fun w => is_some (video_device (gadget w))))
    (fun _ => ret false).

(** [_configure_gadget]: the ConfigFS writes are taken as one step. *)
Definition _configure_gadget (e : env) : M gworld bool :=
  try_except is_Exception
    ((if configfs_writes_ok e then ret tt
      else raise (Exception "OSError")) ;;
     self_g (set_gadget_configured true) ;;
     ret true)
    (fun _ => ret false).

Definition write_udc (e : env) (value : string) : M gworld unit :=
  if udc_write_ok e
  then modify (fun w => set_udc_writes (udc_writes w ++ [value]) w)
  else raise (Exception "OSError").

Definition _enable_gadget (e : env) : M gworld bool :=
  try_except is_Exception
    (let udc_dir := "/sys/class/udc" in
     let udc := if path_exists e udc_dir
                then match listdir e udc_dir with
                     | [] => None
                     | u :: _ => Some u
                     end
                else None in
     match udc with
     | None => ret false
     | Some u =>
       if String.eqb u "" then ret false
       else write_udc e u ;; ret true
     end)
    (fun _ => ret false).

Definition _disable_gadget (e : env) : M gworld bool :=
  try_except is_Exception
    (write_udc e "" ;; ret true)
    (fun _ => ret false).

(** The video loop of [_open_devices]: [true] when it left through
    [break], that is with [video_found] set. *)
Fixpoint open_video (e : env) (is_ : list nat) : M gworld bool :=
  match is_ with
  | [] => ret false
  | i :: rest =>
    let video_path := ("/dev/video" ++ str i)%string in
    if path_exists e video_path then
      found <- try_except is_Exception
                 (h <- open_file e video_path ;;
                  assign_video_device h ;;
                  try_except bare_except
                    (card <- ioctl_querycap e h ;;
                     cfg <- gets (fun w => g_config (gadget w)) ;;
                     if String.prefix (UVC_DEVICE_NAME cfg) card
                     then ret true
                     else ret false)
                    (fun _ =>
                       (* Not our device, try another *)
                       close_file e h ;;
                       self_g (set_video_device None) ;;
                       ret false))
                 (fun _ => ret false) ;;
      if found then ret true
      else open_video e rest
    else open_video e rest
  end.

(** The retry loop of [_open_devices]; [envs r] is what the system
    answers during attempt [r]. *)
Fixpoint open_devices_retry (envs : nat -> env) (retries : list nat)
  : M gworld bool :=
  match retries with
  | [] => ret false
  | retry :: rest =>
    let e := envs retry in
    video_found <- open_video e (range 10) ;;
    cfg <- gets (fun w => g_config (gadget w)) ;;
    audio_found <- (if AUDIO_ENABLED cfg then open_audio e (range 10)
                    else ret true) ;;
    if video_found && audio_found then ret true
    else open_devices_retry envs rest   (* after asyncio.sleep(1) *)
  end.

Definition _open_devices (envs : nat -> env) : M gworld bool :=
  try_except is_Exception
    (let max_retries := 10 in
     open_devices_retry envs (range max_retries))
    (fun _ => ret false).

Definition start (envs : nat -> env) : M gworld bool :=
  let e := envs 0 in
  try_except is_Exception
    (if negb (geteuid e =? 0) then
       r <- _find_existing_gadgets e ;;
       self_g (set_g_running r) ;;
       gets (fun w => g_running (gadget w))
     else if negb (path_exists e "/sys/kernel/config") then ret false
     else
       success <- _configure_gadget e ;;
       if negb success then ret false else
       success <- _enable_gadget e ;;
       if negb success then ret false else
       success <- _open_devices envs ;;
       if negb success then ret false else
       self_g (set_g_running true) ;;
       ret true)
    (fun _ => ret false).

Definition stop (e : env) : M gworld bool :=
  try_except is_Exception
    (vd <- gets (fun w => video_device (gadget w)) ;;
     match vd with
     | Some h => close_file e h ;; self_g (set_video_device None)
     | None => ret tt
     end ;;
     ad <- gets (fun w => audio_device (gadget w)) ;;
     match ad with
     | Some h => close_file e h ;; self_g (set_audio_device None)
     | None => ret tt
     end ;;
     configured <- gets (fun w => gadget_configured (gadget w)) ;;
     (if configured && (geteuid e =? 0)
      then _ <- _disable_gadget e ;; ret tt
      else ret tt) ;;
     self_g (set_g_running false) ;;
     ret true)
    (fun _ => ret false).

(** [device.write(data); device.flush()]. *)
Definition write_flush (io : dev_io) (h : handle) (data : bytes)
  : M gworld unit :=
  if negb (write_ok io) then raise (Exception "OSError")
  else if negb (flush_ok io) then raise (Exception "OSError")
  else modify (fun w => set_dev_written (dev_written w ++ [(h, data)]) w).

Definition write_video_frame (io : dev_io) (frame_data : bytes)
  : M gworld bool :=
  g <- gets gadget ;;
  match g_running g, video_device g with
  | true, Some h =>
    try_except is_Exception
      (write_flush io h frame_data ;; ret true)
      (fun _ => ret false)
  | _, _ => ret false
  end.

Definition write_audio_sample (io : dev_io) (audio_data : bytes)
  : M gworld bool :=
  g <- gets gadget ;;
  match g_running g, audio_device g, AUDIO_ENABLED (g_config g) with
  | true, Some h, true =>
    try_except is_Exception
      (write_flush io h audio_data ;; ret true)
      (fun _ => ret false)
  | _, _, _ => ret false
  end.

Record status : Type := mkStatus {
  st_running : bool;
  st_video_device : bool;
  st_audio_device : bool;
  st_gadget_configured : bool
}.

Definition get_status (g : USBGadget) : status :=
  {| st_running := g_running g;
     st_video_device := is_some (video_device g);
     st_audio_device := is_some (audio_device g);
     st_gadget_configured := gadget_configured g |}.

End Gadget.

(** ** [MediaPipeline]: the media bridge *)

Module Pipeline.

(** *** asyncio *)

Definition create_task (c : coro) : M world task_id :=
  fun w => (Ret (List.length (loop w)), set_loop (loop w ++ [mkTask c Pending]) w).

Fixpoint update_task (id : task_id) (f : task -> task) (l : list task)
  : list task :=
  match l, id with
  | [], _ => []
  | t :: l', 0 => f t :: l'
  | t :: l', S id' => t :: update_task id' f l'
  end.

(** [task.cancel()]: a task that is already done is left alone. *)
Definition request_cancel (t : task) : task :=
  match task_st t with
  | Pending => mkTask (task_coro t) Cancelled
  | _ => t
  end.

Definition cancel (id : task_id) : M world unit :=
  modify (fun w => set_loop (update_task id request_cancel (loop w)) w).

(** [await task]: a cancelled task raises [CancelledError] in the
    awaiter.  Awaiting a task that is still pending lets it run to its
    end; the processing coroutines end once [running] is false. *)
Definition await_task (id : task_id) : M world unit :=
  fun w =>
    match nth_error (loop w) id with
    | Some t =>
      match task_st t with
      | Cancelled => (Raise CancelledError, w)
      | Finished => (Ret tt, w)
      | Pending =>
        (Ret tt,
         set_loop (update_task id (fun t => mkTask (task_coro t) Finished) (loop w)) w)
      end
    | None => (Ret tt, w)
    end.

(** *** PyAV *)

(** [av.CodecContext.create(name, mode)]; [av name] tells whether the
    codec is available. *)
Definition codec_create (av : string -> bool) (name mode : string)
  : M world CodecContext :=
  if av name then ret (mkCodec name mode [])
  else raise (Exception "UnknownCodecError").

Definition on_video_encoder (f : CodecContext -> CodecContext) : M world unit :=
  self_p (fun p => set_video_encoder (option_map f (video_encoder p)) p).
Definition on_audio_encoder (f : CodecContext -> CodecContext) : M world unit :=
  self_p (fun p => set_audio_encoder (option_map f (audio_encoder p)) p).
Definition on_audio_decoder (f : CodecContext -> CodecContext) : M world unit :=
  self_p (fun p => set_audio_decoder (option_map f (audio_decoder p)) p).

(** *** start and stop *)

Definition start (av : string -> bool) : M world bool :=
  try_except is_Exception
    (cfg <- gets (fun w => config (pipeline w)) ;;
     enc <- (if String.eqb (VIDEO_CODEC cfg) "H264"
             then codec_create av "h264_omx" "w"
             else codec_create av "libx264" "w") ;;
     self_p (set_video_encoder (Some enc)) ;;
     on_video_encoder (setattr "width" (AInt (VIDEO_WIDTH cfg))) ;;
     on_video_encoder (setattr "height" (AInt (VIDEO_HEIGHT cfg))) ;;
     on_video_encoder (setattr "bit_rate" (AInt 2000000)) ;;
     on_video_encoder (setattr "pix_fmt" (AStr "yuv420p")) ;;
     on_video_encoder (setattr "framerate" (AInt (VIDEO_FRAMERATE cfg))) ;;
     dec <- codec_create av "h264" "r" ;;
     self_p (set_video_decoder (Some dec)) ;;
     (if AUDIO_ENABLED cfg then
        aenc <- codec_create av "pcm_s16le" "w" ;;
        self_p (set_audio_encoder (Some aenc)) ;;
        on_audio_encoder (setattr "sample_rate" (AInt (AUDIO_SAMPLE_RATE cfg))) ;;
        on_audio_encoder (setattr "channels" (AInt (AUDIO_CHANNELS cfg))) ;;
        adec <- codec_create av "opus" "r" ;;
        self_p (set_audio_decoder (Some adec)) ;;
        on_audio_decoder (setattr "sample_rate" (AInt (AUDIO_SAMPLE_RATE cfg))) ;;
        on_audio_decoder (setattr "channels" (AInt (AUDIO_CHANNELS cfg)))
      else ret tt) ;;
     vt <- create_task ProcessVideo ;;
     self_p (set_video_task (Some vt)) ;;
     (if AUDIO_ENABLED cfg then
        at_ <- create_task ProcessAudio ;;
        self_p (set_audio_task (Some at_))
      else ret tt) ;;
     self_p (set_running true) ;;
     ret true)
    (fun _ => ret false).

(** [task.cancel()] then [await task] under [except CancelledError: pass]. *)
Definition cancel_and_await (t : option task_id) : M world unit :=
  match t with
  | Some id =>
    cancel id ;;
    try_except is_CancelledError (await_task id) (fun _ => ret tt)
  | None => ret tt
  end.

Definition stop : M world bool :=
  try_except is_Exception
    (self_p (set_running false) ;;
     vt <- gets (fun w => video_task (pipeline w)) ;;
     cancel_and_await vt ;;
     at_ <- gets (fun w => audio_task (pipeline w)) ;;
     cancel_and_await at_ ;;
     self_p (fun p => set_video_frame_queue (Deque.clear (video_frame_queue p)) p) ;;
     self_p (fun p => set_audio_sample_queue (Deque.clear (audio_sample_queue p)) p) ;;
     self_p (set_video_track None) ;;
     self_p (set_audio_track None) ;;
     ret true)
    (fun _ => ret false).

(** *** Tracks and their frame callbacks *)

Definition Qltb (x y : Q) : bool := negb (Qle_bool y x).

(** The callback installed by [add_video_track]; [now] is [time.time()]. *)
Definition video_on_frame (f : frame) (now : Q) (p : MediaPipeline)
  : MediaPipeline :=
  let st := video_stats p in
  if PIPELINE_BUFFER_SIZE (config p) <=? Deque.len (video_frame_queue p) then
    set_video_stats
      (mkVideoStats (frames_received st) (frames_dropped st + 1)
                    (last_frame_time st) (current_fps st)) p
  else
    let p := set_video_frame_queue (Deque.append f (video_frame_queue p)) p in
    let dt := if Qltb 0 (last_frame_time st)
              then (now - last_frame_time st)%Q else 1%Q in
    let alpha := (1 # 10)%Q in
    let new_fps := if Qltb 0 dt then (1 / dt)%Q else 0%Q in
    let fps := if Qeq_bool (current_fps st) 0
               then new_fps
               else (alpha * new_fps + (1 - alpha) * current_fps st)%Q in
    set_video_stats
      (mkVideoStats (frames_received st + 1) (frames_dropped st) now fps) p.

(** The callback installed by [add_audio_track]. *)
Definition audio_on_frame (f : frame) (now : Q) (p : MediaPipeline)
  : MediaPipeline :=
  let st := audio_stats p in
  if Deque.maxlen (audio_sample_queue p) <=? Deque.len (audio_sample_queue p) then
    set_audio_stats
      (mkAudioStats (samples_received st) (samples_dropped st + 1)
                    (last_sample_time st)) p
  else
    let p := set_audio_sample_queue (Deque.append f (audio_sample_queue p)) p in
    set_audio_stats
      (mkAudioStats (samples_received st + 1) (samples_dropped st) now) p.

Definition add_video_track (t : track) (p : MediaPipeline) : MediaPipeline :=
  set_video_track (Some t) p.

Definition remove_video_track (t : track) (p : MediaPipeline) : MediaPipeline :=
  match video_track p with
  | Some t' => if t' =? t then set_video_track None p else p
  | None => p
  end.

Definition add_audio_track (t : track) (p : MediaPipeline) : MediaPipeline :=
  if negb (AUDIO_ENABLED (config p)) then p
  else set_audio_track (Some t) p.

Definition remove_audio_track (t : track) (p : MediaPipeline) : MediaPipeline :=
  if negb (AUDIO_ENABLED (config p)) then p
  else match audio_track p with
       | Some t' => if t' =? t then set_audio_track None p else p
       | None => p
       end.

Definition set_usb_gadget (p : MediaPipeline) : MediaPipeline :=
  set_usb_gadget_ref (Some TheGadget) p.

(** *** The conversion tasks *)

(** [for packet in packets: await write(packet.to_bytes())]; [io k] is
    what the device does on the k-th packet.  The value returned by the
    write is dropped, as in the source. *)
Fixpoint write_packets (write : Gadget.dev_io -> bytes -> M gworld bool)
         (io : nat -> Gadget.dev_io) (k : nat) (packets : list bytes)
  : M world unit :=
  match packets with
  | [] => ret tt
  | packet :: rest =>
    _ <- call_gadget (write (io k) packet) ;;
    write_packets write io (S k) rest
  end.

(** Conversion and encoding by the codec library: the packets produced
    for a frame, or [None] when any of the calls raises. *)
Definition encoder := frame -> option (list bytes).

Definition convert_and_encode (encode : encoder) (f : frame)
  : M world (list bytes) :=
  match encode f with
  | Some packets => ret packets
  | None => raise (Exception "av.error")
  end.

(** One pass through the body of [while self.running] in
    [_process_video], entered with the loop test already true. *)
Definition video_iteration (encode : encoder) (io : nat -> Gadget.dev_io)
  : M world unit :=
  p <- gets pipeline ;;
  if negb (Deque.truthy (video_frame_queue p)) || negb (is_some (usb_gadget p))
  then ret tt                              (* asyncio.sleep(0.001); continue *)
  else
    match Deque.popleft (video_frame_queue p) with
    | None => raise (Exception "IndexError")
    | Some (f, q) =>
      self_p (set_video_frame_queue q) ;;
      try_except is_Exception
        (packets <- convert_and_encode encode f ;;
         write_packets Gadget.write_video_frame io 0 packets)
        (fun _ => ret tt)
    end.

Definition audio_iteration (encode : encoder) (io : nat -> Gadget.dev_io)
  : M world unit :=
  p <- gets pipeline ;;
  if negb (Deque.truthy (audio_sample_queue p)) || negb (is_some (usb_gadget p))
  then ret tt
  else
    match Deque.popleft (audio_sample_queue p) with
    | None => raise (Exception "IndexError")
    | Some (f, q) =>
      self_p (set_audio_sample_queue q) ;;
      try_except is_Exception
        (packets <- convert_and_encode encode f ;;
         write_packets Gadget.write_audio_sample io 0 packets)
        (fun _ => ret tt)
    end.

Definition finish (id : task_id) : M world unit :=
  modify (fun w => set_loop
    (update_task id (fun t => mkTask (task_coro t) Finished) (loop w)) w).

(** The scheduler resumes task [id] for one turn of its [while] loop.
    A task that is done does nothing; an [Exception] escaping the loop
    is logged by the coroutine's outer handler and ends the task. *)
Definition resume (id : task_id) (encode : encoder)
           (io : nat -> Gadget.dev_io) : M world unit :=
  l <- gets loop ;;
  match nth_error l id with
  | Some (mkTask c Pending) =>
    p <- gets pipeline ;;
    match c with
    | ProcessVideo =>
      if running p then
        try_except is_Exception (video_iteration encode io)
                   (fun _ => finish id)
      else finish id
    | ProcessAudio =>
      if negb (AUDIO_ENABLED (config p)) then finish id
      else if running p then
        try_except is_Exception (audio_iteration encode io)
                   (fun _ => finish id)
      else finish id
    end
  | _ => ret tt
  end.

(** [n] consecutive turns of the video loop, the k-th of them against
    the device behaviour [io k]; the loop ends when [running] is false. *)
Fixpoint video_loop (n : nat) (encode : encoder)
         (io : nat -> nat -> Gadget.dev_io) (k : nat) : M world unit :=
  match n with
  | 0 => ret tt
  | S n' =>
    r <- gets (fun w => running (pipeline w)) ;;
    if r then video_iteration encode (io k) ;;
              video_loop n' encode io (S k)
    else ret tt
  end.

(** *** Status *)

Definition round_half_even (x : Q) : Z :=
  let f := Qfloor x in
  let r := (x - inject_Z f)%Q in
  if Qltb r (1 # 2) then f
  else if Qltb (1 # 2) r then (f + 1)%Z
  else if Z.even f then f else (f + 1)%Z.

(** [round(x, 1)]. *)
Definition round1 (x : Q) : Q := (inject_Z (round_half_even (x * 10)) / 10)%Q.

Record video_status : Type := mkVideoStatus {
  v_track_active : bool;
  v_frames_received : nat;
  v_frames_dropped : nat;
  v_fps : Q;
  v_queue_size : nat
}.

Record audio_status : Type := mkAudioStatus {
  a_enabled : bool;
  a_track_active : bool;
  a_samples_received : nat;
  a_samples_dropped : nat;
  a_queue_size : nat
}.

Record status : Type := mkStatus {
  st_running : bool;
  st_video : video_status;
  st_audio : audio_status
}.

Definition get_status (p : MediaPipeline) : status :=
  let enabled := AUDIO_ENABLED (config p) in
  {| st_running := running p;
     st_video :=
       {| v_track_active := is_some (video_track p);
          v_frames_received := frames_received (video_stats p);
          v_frames_dropped := frames_dropped (video_stats p);
          v_fps := round1 (current_fps (video_stats p));
          v_queue_size := Deque.len (video_frame_queue p) |};
     st_audio :=
       {| a_enabled := enabled;
          a_track_active := if enabled then is_some (audio_track p) else false;
          a_samples_received :=
            if enabled then samples_received (audio_stats p) else 0;
          a_samples_dropped :=
            if enabled then samples_dropped (audio_stats p) else 0;
          a_queue_size :=
            if enabled then Deque.len (audio_sample_queue p) else 0 |} |}.

End Pipeline.

(** ** Histories of the bridge

    Everything that can happen to the two objects, as the calls made by
    the application, the transport and the event loop. *)

Inductive event : Type :=
| PipelineStart (av : string -> bool)
| PipelineStop
| AddVideoTrack (t : track)
| RemoveVideoTrack (t : track)
| AddAudioTrack (t : track)
| RemoveAudioTrack (t : track)
| SetUsbGadget
| VideoFrame (f : frame) (now : Q)
| AudioFrame (f : frame) (now : Q)
| Resume (id : task_id) (encode : Pipeline.encoder) (io : nat -> Gadget.dev_io)
| GadgetStart (envs : nat -> Gadget.env)
| GadgetStop (e : Gadget.env).

Definition exec {S A} (c : M S A) (s : S) : S := snd (c s).

Definition on_pipeline (f : MediaPipeline -> MediaPipeline) (w : world) : world :=
  set_pipeline (f (pipeline w)) w.

Definition step (e : event) (w : world) : world :=
  match e with
  | PipelineStart av => exec (Pipeline.start av) w
  | PipelineStop => exec Pipeline.stop w
  | AddVideoTrack t => on_pipeline (Pipeline.add_video_track t) w
  | RemoveVideoTrack t => on_pipeline (Pipeline.remove_video_track t) w
  | AddAudioTrack t => on_pipeline (Pipeline.add_audio_track t) w
  | RemoveAudioTrack t => on_pipeline (Pipeline.remove_audio_track t) w
  | SetUsbGadget => on_pipeline Pipeline.set_usb_gadget w
  | VideoFrame f now => on_pipeline (Pipeline.video_on_frame f now) w
  | AudioFrame f now => on_pipeline (Pipeline.audio_on_frame f now) w
  | Resume id encode io => exec (Pipeline.resume id encode io) w
  | GadgetStart envs => exec (call_gadget (Gadget.start envs)) w
  | GadgetStop e => exec (call_gadget (Gadget.stop e)) w
  end.

Fixpoint run (evs : list event) (w : world) : world :=
  match evs with
  | [] => w
  | e :: evs' => run evs' (step e w)
  end.

(** The part of the bridge that the ingestion path owns. *)
Record ingestion : Type := mkIngestion {
  i_config : Config;
  i_video_queue : Deque.t frame;
  i_video_stats : VideoStats;
  i_audio_queue : Deque.t frame;
  i_audio_stats : AudioStats
}.

Definition ingestion_of (p : MediaPipeline) : ingestion :=
  mkIngestion (config p) (video_frame_queue p) (video_stats p)
              (audio_sample_queue p) (audio_stats p).

(** Arrivals of a history that meet a full queue. *)
Fixpoint rejected_video (cap : nat) (evs : list event) (w : world) : nat :=
  match evs with
  | [] => 0
  | e :: evs' =>
    (match e with
     | VideoFrame _ _ =>
       if cap <=? Deque.len (video_frame_queue (pipeline w)) then 1 else 0
     | _ => 0
     end) + rejected_video cap evs' (step e w)
  end.

Fixpoint rejected_audio (cap : nat) (evs : list event) (w : world) : nat :=
  match evs with
  | [] => 0
  | e :: evs' =>
    (match e with
     | AudioFrame _ _ =>
       if cap <=? Deque.len (audio_sample_queue (pipeline w)) then 1 else 0
     | _ => 0
     end) + rejected_audio cap evs' (step e w)
  end.


(** What an event other than an arrival may do to the ingestion side:
    nothing to the configuration, the counters and the capacities; the
    queues can only shrink; the audio registration can only be cleared,
    unless audio is enabled. *)
Definition quiet (p p' : MediaPipeline) : Prop :=
  config p' = config p /\
  video_stats p' = video_stats p /\
  audio_stats p' = audio_stats p /\
  Deque.maxlen (video_frame_queue p') = Deque.maxlen (video_frame_queue p) /\
  Deque.maxlen (audio_sample_queue p') = Deque.maxlen (audio_sample_queue p) /\
  Deque.len (video_frame_queue p') <= Deque.len (video_frame_queue p) /\
  Deque.len (audio_sample_queue p') <= Deque.len (audio_sample_queue p) /\
  (audio_track p' = audio_track p \/ audio_track p' = None \/
   AUDIO_ENABLED (config p) = true).

Definition is_arrival (e : event) : bool :=
  match e with
  | VideoFrame _ _ | AudioFrame _ _ => true
  | _ => false
  end.

(** Capacities and bounds that every reachable bridge satisfies. *)
Definition well_formed (cfg : Config) (p : MediaPipeline) : Prop :=
  config p = cfg /\
  Deque.maxlen (video_frame_queue p) = PIPELINE_BUFFER_SIZE cfg /\
  Deque.maxlen (audio_sample_queue p) = PIPELINE_BUFFER_SIZE cfg * 10 /\
  Deque.len (video_frame_queue p) <= PIPELINE_BUFFER_SIZE cfg /\
  Deque.len (audio_sample_queue p) <= PIPELINE_BUFFER_SIZE cfg * 10 /\
  (AUDIO_ENABLED cfg = false -> audio_track p = None).

(** The bridge object as [stop] leaves it. *)
Definition stopped (p : MediaPipeline) : MediaPipeline :=
  set_audio_track None
    (set_video_track None
       (set_audio_sample_queue (Deque.clear (audio_sample_queue p))
          (set_video_frame_queue (Deque.clear (video_frame_queue p))
             (set_running false p)))).

(** *** The smoothed rate as the specification words it *)

(** Instantaneous rate for an inter-arrival delta. *)
Definition instant (dt : Q) : Q := if Pipeline.Qltb 0 dt then (1 / dt)%Q else 0%Q.

(** [smoothed = 0.1 * instant + 0.9 * smoothed]. *)
Definition ema_step (smoothed dt : Q) : Q :=
  ((1 # 10) * instant dt + (9 # 10) * smoothed)%Q.






(** *** Media kinds *)

Inductive kind : Type := Video | Audio.

Definition registration (k : kind) (p : MediaPipeline) : option track :=
  match k with
  | Video => video_track p
  | Audio => audio_track p
  end.

(** Detaching by kind, as the transport's [on_ended] handler dispatches. *)
Definition detach (k : kind) (t : track) (p : MediaPipeline) : MediaPipeline :=
  match k with
  | Video => Pipeline.remove_video_track t p
  | Audio => Pipeline.remove_audio_track t p
  end.

(** *** Tasks *)




Definition all_codecs : string -> bool := fun _ => true.

(** The default configuration with audio switched off. *)
Definition no_audio_config : Config :=
  {| VIDEO_WIDTH := 1280; VIDEO_HEIGHT := 720; VIDEO_FRAMERATE := 30;
     VIDEO_CODEC := "H264"; AUDIO_ENABLED := false; AUDIO_CHANNELS := 1;
     AUDIO_SAMPLE_RATE := 48000;
     USB_GADGET_PATH := "/sys/kernel/config/usb_gadget/webrtcam";
     UVC_DEVICE_NAME := "WebRTCam Video";
     PIPELINE_BUFFER_SIZE := 5 |}.

(** A world with audio switched off whose audio fields are nonetheless
    populated, and whose gadget runs with an audio node open (the
    discovery-only start opens one whatever the configuration says). *)
Definition audio_off_world : world :=
  {| pipeline :=
       set_audio_stats (mkAudioStats 4 2 (7 # 1))
         (set_audio_sample_queue (Deque.mk [11; 12] 50)
            (set_audio_track (Some 9) (MediaPipeline_init no_audio_config)));
     loop := [];
     devs := {| gadget :=
                  set_g_running true
                    (set_audio_device (Some (mkHandle 4 "/dev/snd/pcmC0D0p"))
                       (set_video_device (Some (mkHandle 3 "/dev/video0"))
                          (USBGadget_init no_audio_config)));
                open_files := [mkHandle 4 "/dev/snd/pcmC0D0p";
                               mkHandle 3 "/dev/video0"];
                next_fd := 5; dev_written := []; udc_writes := [] |} |}.

(** The event loop after [task.cancel()] on an optional task reference. *)
Definition cancelled (t : option task_id) (l : list task) : list task :=
  match t with
  | Some id => Pipeline.update_task id Pipeline.request_cancel l
  | None => l
  end.

(** *** Discovery, in the specification's words *)

(** Candidate [i] of the video class exists and can be opened. *)
Definition video_node_usable (e : Gadget.env) (i : nat) : bool :=
  Gadget.path_exists e ("/dev/video" ++ str i)%string
  && Gadget.open_ok e ("/dev/video" ++ str i)%string.

(** Some candidate of the fixed range is a usable video node. *)
Definition video_node_found (e : Gadget.env) : bool :=
  existsb (video_node_usable e) (range 10).

(** What the gadget object and the controller binding look like from
    outside, device handles apart. *)
Definition lifecycle_flags (g : gworld) : bool * list string :=
  (gadget_configured (gadget g), udc_writes g).

(** *** Sample environments *)

(** An unprivileged process on a machine whose only device node is
    [/dev/video2]. *)
Definition unprivileged_env : Gadget.env :=
  {| Gadget.geteuid := 1000;
     Gadget.path_exists := fun p => String.eqb p "/dev/video2";
     Gadget.open_ok := fun _ => true;
     Gadget.querycap := fun _ => None;
     Gadget.close_ok := fun _ => true;
     Gadget.configfs_writes_ok := false;
     Gadget.listdir := fun _ => [];
     Gadget.udc_write_ok := false |}.

(** A privileged process on a machine whose only video node is an
    ordinary webcam at [/dev/video0]; no audio node exists. *)
Definition foreign_camera_env : Gadget.env :=
  {| Gadget.geteuid := 0;
     Gadget.path_exists := fun p => String.eqb p "/dev/video0";
     Gadget.open_ok := fun _ => true;
     Gadget.querycap := fun _ => Some "HD Webcam";
     Gadget.close_ok := fun _ => true;
     Gadget.configfs_writes_ok := true;
     Gadget.listdir := fun _ => ["dummy_udc.0"];
     Gadget.udc_write_ok := true |}.

(** The same machine, but the webcam's node refuses the capability
    query. *)
Definition unqueryable_camera_env : Gadget.env :=
  {| Gadget.geteuid := 0;
     Gadget.path_exists := fun p => String.eqb p "/dev/video0";
     Gadget.open_ok := fun _ => true;
     Gadget.querycap := fun _ => None;
     Gadget.close_ok := fun _ => true;
     Gadget.configfs_writes_ok := true;
     Gadget.listdir := fun _ => ["dummy_udc.0"];
     Gadget.udc_write_ok := true |}.

(** Three video nodes, of which only the third reports the gadget's
    name. *)
Definition third_matches_env : Gadget.env :=
  {| Gadget.geteuid := 0;
     Gadget.path_exists := fun p =>
       String.eqb p "/dev/video0" || String.eqb p "/dev/video1"
       || String.eqb p "/dev/video2";
     Gadget.open_ok := fun _ => true;
     Gadget.querycap := fun p =>
       if String.eqb p "/dev/video2" then Some "WebRTCam Video"
       else Some "HD Webcam";
     Gadget.close_ok := fun _ => true;
     Gadget.configfs_writes_ok := true;
     Gadget.listdir := fun _ => ["dummy_udc.0"];
     Gadget.udc_write_ok := true |}.

(** A privileged process whose video node fails to close cleanly. *)
Definition failing_close_env : Gadget.env :=
  {| Gadget.geteuid := 0;
     Gadget.path_exists := fun _ => true;
     Gadget.open_ok := fun _ => true;
     Gadget.querycap := fun _ => Some "WebRTCam Video";
     Gadget.close_ok := fun h => negb (String.eqb (h_path h) "/dev/video0");
     Gadget.configfs_writes_ok := true;
     Gadget.listdir := fun _ => ["dummy_udc.0"];
     Gadget.udc_write_ok := true |}.

(** A provisioned, bound and running gadget with both nodes open. *)
Definition running_gadget : gworld :=
  {| gadget :=
       {| g_config := default_config;
          video_device := Some (mkHandle 3 "/dev/video0");
          audio_device := Some (mkHandle 4 "/dev/snd/pcmC0D0p");
          g_running := true; gadget_configured := true |};
     open_files := [mkHandle 4 "/dev/snd/pcmC0D0p"; mkHandle 3 "/dev/video0"];
     next_fd := 5; dev_written := []; udc_writes := ["dummy_udc.0"] |}.

(** Every close of the handles the gadget holds goes through. *)
Definition closes_ok (e : Gadget.env) (g : USBGadget) : bool :=
  match video_device g with Some h => Gadget.close_ok e h | None => true end
  && match audio_device g with Some h => Gadget.close_ok e h | None => true end.

Definition not_open (h : option handle) (g : gworld) : Prop :=
  match h with Some h => ~ In h (open_files g) | None => True end.

(** *** What reaches the device nodes *)

(** The handle a video write goes to, if the gadget accepts writes. *)
Definition video_sink (g : USBGadget) : option handle :=
  if g_running g then video_device g else None.

Definition audio_sink (g : USBGadget) : option handle :=
  if g_running g
  then match audio_device g with
       | Some h => if AUDIO_ENABLED (g_config g) then Some h else None
       | None => None
       end
  else None.

Definition io_ok (io : Gadget.dev_io) : bool :=
  Gadget.write_ok io && Gadget.flush_ok io.

(** The payload one write call gets acknowledged: nothing without a
    sink or when the write or the flush raises.  (Bytes of a failed call
    may linger in the file object's buffer; they are not followed.) *)
Definition delivered (sink : option handle) (io : Gadget.dev_io) (data : bytes)
  : list (handle * bytes) :=
  match sink with
  | Some h => if io_ok io then [(h, data)] else []
  | None => []
  end.

(** Each packet is acknowledged or not by its own device outcome,
    whatever happened to the packets before it. *)
Fixpoint delivered_packets (sink : option handle) (io : nat -> Gadget.dev_io)
         (k : nat) (packets : list bytes) : list (handle * bytes) :=
  match packets with
  | [] => []
  | packet :: rest =>
    delivered sink (io k) packet ++ delivered_packets sink io (S k) rest
  end.

Fixpoint delivered_frames (sink : option handle) (encode : Pipeline.encoder)
         (io : nat -> nat -> Gadget.dev_io) (k : nat) (fs : list frame)
  : list (handle * bytes) :=
  match fs with
  | [] => []
  | f :: rest =>
    match encode f with
    | Some packets => delivered_packets sink (io k) 0 packets
    | None => []
    end ++ delivered_frames sink encode io (S k) rest
  end.

(** A running bridge wired to the running gadget, two video frames and
    three audio samples queued. *)
Definition bridge_with_backlog : world :=
  {| pipeline :=
       set_audio_sample_queue (Deque.mk [5; 6; 7] 50)
         (set_video_frame_queue (Deque.mk [1; 2] 5)
            (set_usb_gadget_ref (Some TheGadget)
               (set_running true (MediaPipeline_init default_config))));
     loop := [mkTask ProcessVideo Pending];
     devs := running_gadget |}.

(** Each frame encodes to two packets. *)
Definition two_packets : Pipeline.encoder := fun f => Some [[f]; [f; f]].

(** The device rejects the very first write and accepts all later ones. *)
Definition first_write_fails : nat -> nat -> Gadget.dev_io :=
  fun turn k => match turn, k with
                | 0, 0 => Gadget.mkDevIo false true
                | _, _ => Gadget.mkDevIo true true
                end.

(** *** Privileged discovery and start, as functions of the environment *)

(** Candidate [i] of the video class exists, opens, answers the query and
    reports a name that starts with the configured gadget name. *)
Definition video_candidate_matches (e : Gadget.env) (cfg : Config) (i : nat)
  : bool :=
  Gadget.path_exists e ("/dev/video" ++ str i)%string
  && Gadget.open_ok e ("/dev/video" ++ str i)%string
  && match Gadget.querycap e ("/dev/video" ++ str i)%string with
     | Some card => String.prefix (UVC_DEVICE_NAME cfg) card
     | None => false
     end.

Definition audio_node_usable (e : Gadget.env) (i : nat) : bool :=
  Gadget.path_exists e ("/dev/snd/pcmC" ++ str i ++ "D0p")%string
  && Gadget.open_ok e ("/dev/snd/pcmC" ++ str i ++ "D0p")%string.

(** One discovery attempt finds what the configuration requires. *)
Definition attempt_ok (e : Gadget.env) (cfg : Config) : bool :=
  existsb (video_candidate_matches e cfg) (range 10)
  && (if AUDIO_ENABLED cfg then existsb (audio_node_usable e) (range 10)
      else true).

Definition discovery_ok (envs : nat -> Gadget.env) (cfg : Config) : bool :=
  existsb (fun retry => attempt_ok (envs retry) cfg) (range 10).

(** The controller the gadget would be bound to. *)
Definition first_controller (e : Gadget.env) : option string :=
  if Gadget.path_exists e "/sys/class/udc"
  then match Gadget.listdir e "/sys/class/udc" with
       | u :: _ => if String.eqb u "" then None else Some u
       | [] => None
       end
  else None.

(** Provisioning goes through. *)
Definition provisioned (e : Gadget.env) : bool :=
  Gadget.path_exists e "/sys/kernel/config" && Gadget.configfs_writes_ok e.

(** Provisioning and binding go through. *)
Definition bound (e : Gadget.env) : bool :=
  provisioned e && is_some (first_controller e) && Gadget.udc_write_ok e.

(** The value [start] returns. *)
Definition start_result (envs : nat -> Gadget.env) (g : USBGadget) : bool :=
  if negb (Gadget.geteuid (envs 0) =? 0)
  then is_some (video_device g) || video_node_found (envs 0)
  else bound (envs 0) && discovery_ok envs (g_config g).

(** What the gadget lifecycle has no business touching. *)
Definition payload_untouched (g g' : gworld) : Prop :=
  g_config (gadget g') = g_config (gadget g) /\
  dev_written g' = dev_written g.

(** A privileged process, ConfigFS mounted and writable, but no USB device
    controller registered. *)
Definition no_controller_env : Gadget.env :=
  {| Gadget.geteuid := 0;
     Gadget.path_exists := fun p => String.eqb p "/sys/kernel/config";
     Gadget.open_ok := fun _ => true;
     Gadget.querycap := fun _ => None;
     Gadget.close_ok := fun _ => true;
     Gadget.configfs_writes_ok := true;
     Gadget.listdir := fun _ => [];
     Gadget.udc_write_ok := true |}.

(** A privileged process on a machine where everything is in place: the
    gadget's own video node at [/dev/video1] behind a webcam at
    [/dev/video0], and an audio node. *)
Definition healthy_env : Gadget.env :=
  {| Gadget.geteuid := 0;
     Gadget.path_exists := fun p =>
       String.eqb p "/sys/kernel/config" || String.eqb p "/sys/class/udc"
       || String.eqb p "/dev/video0" || String.eqb p "/dev/video1"
       || String.eqb p "/dev/snd/pcmC0D0p";
     Gadget.open_ok := fun _ => true;
     Gadget.querycap := fun p =>
       if String.eqb p "/dev/video1" then Some "WebRTCam Video 0"
       else Some "HD Webcam";
     Gadget.close_ok := fun _ => true;
     Gadget.configfs_writes_ok := true;
     Gadget.listdir := fun _ => ["fe980000.usb"; "dummy_udc.0"];
     Gadget.udc_write_ok := true |}.

(** *** Further vocabulary for the bridge *)

(** The codecs [start] asks the codec library for. *)
Definition codecs_available (av : string -> bool) (cfg : Config) : bool :=
  av (if String.eqb (VIDEO_CODEC cfg) "H264" then "h264_omx" else "libx264")
  && av "h264"
  && (if AUDIO_ENABLED cfg then av "pcm_s16le" && av "opus" else true).

Fixpoint video_arrivals (evs : list event) : nat :=
  match evs with
  | [] => 0
  | VideoFrame _ _ :: evs' => S (video_arrivals evs')
  | _ :: evs' => video_arrivals evs'
  end.

Fixpoint audio_arrivals (evs : list event) : nat :=
  match evs with
  | [] => 0
  | AudioFrame _ _ :: evs' => S (audio_arrivals evs')
  | _ :: evs' => audio_arrivals evs'
  end.

(** A burst of video arrivals with nothing in between. *)
Definition burst (arrivals : list (frame * Q)) : list event :=
  map (fun a => VideoFrame (fst a) (snd a)) arrivals.

(** [n] consecutive turns of the loop in [_process_audio]. *)
Fixpoint audio_turns (n : nat) (encode : Pipeline.encoder)
         (io : nat -> nat -> Gadget.dev_io) (k : nat) : M world unit :=
  match n with
  | 0 => ret tt
  | S n' =>
    r <- gets (fun w => running (pipeline w)) ;;
    if r then Pipeline.audio_iteration encode (io k) ;;
              audio_turns n' encode io (S k)
    else ret tt
  end.

(** [_process_audio], cut after [n] turns: it returns at once when audio
    is disabled. *)
Definition process_audio (n : nat) (encode : Pipeline.encoder)
           (io : nat -> nat -> Gadget.dev_io) : M world unit :=
  enabled <- gets (fun w => AUDIO_ENABLED (config (pipeline w))) ;;
  if negb enabled then ret tt
  else audio_turns n encode io 0.

(** [on_track] of the transport ([src/modules/webrtc.py]): the bridge is
    handed [proxy], the object [relay.subscribe(track)] returned. *)
Definition on_track (k : kind) (proxy : track) (p : MediaPipeline)
  : MediaPipeline :=
  match k with
  | Audio => if AUDIO_ENABLED (config p)
             then Pipeline.add_audio_track proxy p else p
  | Video => Pipeline.add_video_track proxy p
  end.

(** [on_ended] of the transport: the bridge is handed the track itself. *)
Definition on_ended (k : kind) (t : track) (p : MediaPipeline) : MediaPipeline :=
  detach k t p.

(** [WebRTCamApp.start] and [WebRTCamApp.stop] ([src/app.py]), as far as
    the two objects are concerned. *)
Definition app_start (envs : nat -> Gadget.env) (av : string -> bool)
  : list event :=
  [GadgetStart envs; PipelineStart av].

Definition app_stop (e : Gadget.env) : list event :=
  [PipelineStop; GadgetStop e].

Definition wires_gadget (e : event) : bool :=
  match e with SetUsbGadget => true | _ => false end.

(** Every codec but the hardware encoder is installed. *)
Definition software_only : string -> bool :=
  fun name => negb (String.eqb name "h264_omx").

(** * Properties *)

(** ** The monad *)

Lemma call_gadget_frame {A} (c : M gworld A) (w : world) :
  pipeline (snd (call_gadget c w)) = pipeline w /\
  loop (snd (call_gadget c w)) = loop w.
Proof.
  unfold call_gadget. destruct (c (devs w)) as [r g]. split; reflexivity.
Qed.

(** ** The deque *)

Lemma deque_append_len {A} (x : A) (d : Deque.t A) :
  Deque.len d < Deque.maxlen d ->
  Deque.items (Deque.append x d) = Deque.items d ++ [x] /\
  Deque.len (Deque.append x d) = S (Deque.len d) /\
  Deque.maxlen (Deque.append x d) = Deque.maxlen d.
Proof.
  intros Hlt. unfold Deque.append, Deque.len in *. simpl.
  rewrite length_app. simpl.
  replace (Deque.maxlen d <? List.length (Deque.items d) + 1) with false.
  - rewrite length_app. simpl. repeat split; lia.
  - symmetry. apply Nat.ltb_ge. lia.
Qed.

Lemma deque_append_bounded {A} (x : A) (d : Deque.t A) :
  Deque.len d <= Deque.maxlen d ->
  Deque.len (Deque.append x d) <= Deque.maxlen (Deque.append x d).
Proof.
  intros Hle. unfold Deque.append, Deque.len in *. simpl.
  destruct (Deque.maxlen d <? List.length (Deque.items d ++ [x])) eqn:E.
  - destruct (Deque.items d ++ [x]) eqn:El; simpl; [lia|].
    assert (Hl : List.length (Deque.items d ++ [x]) = S (List.length l))
      by (rewrite El; reflexivity).
    rewrite length_app in Hl. simpl in Hl. lia.
  - apply Nat.ltb_ge in E. exact E.
Qed.

Lemma deque_popleft_len {A} (d : Deque.t A) (x : A) (d' : Deque.t A) :
  Deque.popleft d = Some (x, d') ->
  Deque.items d = x :: Deque.items d' /\ Deque.maxlen d' = Deque.maxlen d.
Proof.
  unfold Deque.popleft. destruct (Deque.items d) eqn:E; [discriminate|].
  intros H. injection H as <- <-. simpl. split; reflexivity.
Qed.

(** ** Start, stop and the conversion tasks leave ingestion alone *)

Ltac crunch :=
  repeat (simpl;
          match goal with
          | |- context [if ?b then _ else _] => destruct b eqn:?
          | |- context [match ?x with _ => _ end] => destruct x eqn:?
          end); simpl; try reflexivity.

Ltac unfold_py :=
  unfold exec, try_except, bind, gets, self_p, self_g, modify, ret, raise in *.

Lemma quiet_refl p : quiet p p.
Proof. unfold quiet. repeat split; auto. Qed.

Lemma start_pipeline_fields av w :
  let p' := pipeline (exec (Pipeline.start av) w) in
  ingestion_of p' = ingestion_of (pipeline w) /\
  video_track p' = video_track (pipeline w) /\
  audio_track p' = audio_track (pipeline w) /\
  usb_gadget p' = usb_gadget (pipeline w) /\
  devs (exec (Pipeline.start av) w) = devs w.
Proof.
  unfold Pipeline.start, Pipeline.codec_create, Pipeline.on_video_encoder,
    Pipeline.on_audio_encoder, Pipeline.on_audio_decoder, Pipeline.create_task.
  unfold_py. crunch; repeat split.
Qed.

Lemma ingestion_quiet p p' :
  ingestion_of p' = ingestion_of p -> audio_track p' = audio_track p ->
  quiet p p'.
Proof.
  unfold ingestion_of, quiet. intros H Ha. injection H as -> -> -> -> ->.
  repeat split; auto.
Qed.

Lemma cancel_and_await_spec t w :
  exists l, Pipeline.cancel_and_await t w = (Ret tt, set_loop l w).
Proof.
  destruct t as [id|]; simpl.
  - unfold Pipeline.cancel, Pipeline.await_task. unfold_py. simpl.
    destruct (nth_error (Pipeline.update_task id Pipeline.request_cancel (loop w)) id)
      as [t|]; [destruct (task_st t)|]; simpl; eexists; reflexivity.
  - exists (loop w). destruct w; reflexivity.
Qed.

Lemma stop_spec w :
  exists l, Pipeline.stop w = (Ret true, mkWorld (stopped (pipeline w)) l (devs w)).
Proof.
  unfold Pipeline.stop. unfold_py. simpl.
  match goal with
  | |- context [Pipeline.cancel_and_await ?t ?w0] =>
    destruct (cancel_and_await_spec t w0) as [l1 H1]; rewrite H1
  end. simpl.
  match goal with
  | |- context [Pipeline.cancel_and_await ?t ?w0] =>
    destruct (cancel_and_await_spec t w0) as [l2 H2]; rewrite H2
  end. simpl.
  exists l2. reflexivity.
Qed.

Lemma stop_quiet w : quiet (pipeline w) (pipeline (exec Pipeline.stop w)).
Proof.
  destruct (stop_spec w) as [l H]. unfold exec. rewrite H. simpl.
  unfold quiet, stopped, Deque.len. simpl. repeat split; auto; lia.
Qed.

Lemma write_packets_frame write io packets : forall k w,
  pipeline (snd (Pipeline.write_packets write io k packets w)) = pipeline w /\
  loop (snd (Pipeline.write_packets write io k packets w)) = loop w.
Proof.
  induction packets as [|pkt rest IH]; intros k w; simpl.
  - split; reflexivity.
  - unfold bind.
    destruct (call_gadget_frame (write (io k) pkt) w) as [Hp Hl].
    destruct (call_gadget (write (io k) pkt) w) as [[b|e] w1]; simpl in *.
    + destruct (IH (S k) w1) as [Hp' Hl']. rewrite Hp', Hl'. auto.
    + auto.
Qed.

Lemma video_iteration_quiet encode io w :
  quiet (pipeline w) (pipeline (snd (Pipeline.video_iteration encode io w))) /\
  audio_track (pipeline (snd (Pipeline.video_iteration encode io w)))
  = audio_track (pipeline w) /\
  loop (snd (Pipeline.video_iteration encode io w)) = loop w.
Proof.
  unfold Pipeline.video_iteration. unfold_py. simpl.
  destruct (negb (Deque.truthy (video_frame_queue (pipeline w)))
            || negb (is_some (usb_gadget (pipeline w)))); simpl.
  { split; [apply quiet_refl | split; reflexivity]. }
  destruct (Deque.popleft (video_frame_queue (pipeline w))) as [[f q]|] eqn:Hpop;
    simpl.
  2:{ split; [apply quiet_refl | split; reflexivity]. }
  apply deque_popleft_len in Hpop. destruct Hpop as [Hitems Hmax].
  set (w1 := set_pipeline (set_video_frame_queue q (pipeline w)) w).
  assert (Hq : quiet (pipeline w) (pipeline w1)).
  { unfold quiet, w1, Deque.len. simpl. rewrite Hitems. simpl.
    repeat split; auto; lia. }
  unfold Pipeline.convert_and_encode.
  destruct (encode f) as [packets|]; unfold_py; simpl.
  - destruct (write_packets_frame Gadget.write_video_frame io packets 0 w1)
      as [Hp Hl].
    destruct (Pipeline.write_packets Gadget.write_video_frame io 0 packets w1)
      as [[u|[m|]] w2]; simpl in *; rewrite Hp, Hl; auto.
  - auto.
Qed.

Lemma audio_iteration_quiet encode io w :
  quiet (pipeline w) (pipeline (snd (Pipeline.audio_iteration encode io w))) /\
  loop (snd (Pipeline.audio_iteration encode io w)) = loop w.
Proof.
  unfold Pipeline.audio_iteration. unfold_py. simpl.
  destruct (negb (Deque.truthy (audio_sample_queue (pipeline w)))
            || negb (is_some (usb_gadget (pipeline w)))); simpl.
  { split; [apply quiet_refl | reflexivity]. }
  destruct (Deque.popleft (audio_sample_queue (pipeline w))) as [[f q]|] eqn:Hpop;
    simpl.
  2:{ split; [apply quiet_refl | reflexivity]. }
  apply deque_popleft_len in Hpop. destruct Hpop as [Hitems Hmax].
  set (w1 := set_pipeline (set_audio_sample_queue q (pipeline w)) w).
  assert (Hq : quiet (pipeline w) (pipeline w1)).
  { unfold quiet, w1, Deque.len. simpl. rewrite Hitems. simpl.
    repeat split; auto; lia. }
  unfold Pipeline.convert_and_encode.
  destruct (encode f) as [packets|]; unfold_py; simpl.
  - destruct (write_packets_frame Gadget.write_audio_sample io packets 0 w1)
      as [Hp Hl].
    destruct (Pipeline.write_packets Gadget.write_audio_sample io 0 packets w1)
      as [[u|[m|]] w2]; simpl in *; rewrite Hp, Hl; auto.
  - auto.
Qed.

Lemma finish_pipeline id w :
  pipeline (snd (Pipeline.finish id w)) = pipeline w.
Proof. reflexivity. Qed.

Lemma resume_quiet id encode io w :
  quiet (pipeline w) (pipeline (exec (Pipeline.resume id encode io) w)).
Proof.
  unfold Pipeline.resume. unfold_py. simpl.
  destruct (nth_error (loop w) id) as [[c [| |]]|]; simpl;
    try apply quiet_refl.
  destruct c.
  - destruct (running (pipeline w)); [|apply quiet_refl].
    destruct (video_iteration_quiet encode io w) as (Hq & _ & _).
    destruct (Pipeline.video_iteration encode io w) as [[u|[m|]] w1];
      simpl in *; exact Hq.
  - destruct (negb (AUDIO_ENABLED (config (pipeline w)))); [apply quiet_refl|].
    destruct (running (pipeline w)); [|apply quiet_refl].
    destruct (audio_iteration_quiet encode io w) as (Hq & _).
    destruct (Pipeline.audio_iteration encode io w) as [[u|[m|]] w1];
      simpl in *; exact Hq.
Qed.

Lemma step_quiet e w :
  is_arrival e = false -> quiet (pipeline w) (pipeline (step e w)).
Proof.
  destruct e; simpl; try discriminate; intros _.
  - destruct (start_pipeline_fields av w) as (Hi & _ & Ha & _).
    apply ingestion_quiet; assumption.
  - apply stop_quiet.
  - unfold quiet; simpl; repeat split; auto.
  - unfold Pipeline.remove_video_track.
    destruct (video_track (pipeline w)) as [t'|]; [destruct (t' =? t)|];
      unfold quiet; simpl; repeat split; auto.
  - unfold Pipeline.add_audio_track.
    destruct (AUDIO_ENABLED (config (pipeline w))) eqn:E;
      unfold quiet; simpl; repeat split; auto.
  - unfold Pipeline.remove_audio_track.
    destruct (AUDIO_ENABLED (config (pipeline w))) eqn:E; simpl;
      [destruct (audio_track (pipeline w)) as [t'|]; [destruct (t' =? t)|]|];
      unfold quiet; simpl; repeat split; auto.
  - unfold quiet; simpl; repeat split; auto.
  - apply resume_quiet.
  - unfold exec. rewrite (proj1 (call_gadget_frame _ w)). apply quiet_refl.
  - unfold exec. rewrite (proj1 (call_gadget_frame _ w)). apply quiet_refl.
Qed.

(** ** Ingestion: bounded queues and the drop counters *)

Lemma boot_well_formed cfg : well_formed cfg (pipeline (boot cfg)).
Proof.
  unfold well_formed, boot, Deque.len. simpl. repeat split; auto; lia.
Qed.


Lemma audio_on_frame_full f now p :
  Deque.maxlen (audio_sample_queue p) <= Deque.len (audio_sample_queue p) ->
  Pipeline.audio_on_frame f now p =
  set_audio_stats
    (mkAudioStats (samples_received (audio_stats p))
                  (samples_dropped (audio_stats p) + 1)
                  (last_sample_time (audio_stats p))) p.
Proof.
  intros H. unfold Pipeline.audio_on_frame.
  apply Nat.leb_le in H. rewrite H. reflexivity.
Qed.

Lemma step_well_formed cfg e w :
  well_formed cfg (pipeline w) -> well_formed cfg (pipeline (step e w)).
Proof.
  intros (Hc & Hmv & Hma & Hlv & Hla & Hat).
  destruct (is_arrival e) eqn:Ha.
  - destruct e; try discriminate; simpl.
    + unfold Pipeline.video_on_frame. rewrite Hc.
      destruct (PIPELINE_BUFFER_SIZE cfg <=? Deque.len (video_frame_queue (pipeline w)))
        eqn:E; unfold well_formed; simpl.
      * repeat split; auto.
      * apply Nat.leb_gt in E.
        destruct (deque_append_len f (video_frame_queue (pipeline w)))
          as (_ & Hl & Hm); [lia|].
        rewrite Hl; try rewrite Hm. repeat split; auto; lia.
    + unfold Pipeline.audio_on_frame.
      destruct (Deque.maxlen (audio_sample_queue (pipeline w))
                <=? Deque.len (audio_sample_queue (pipeline w)))
        eqn:E; unfold well_formed; simpl.
      * repeat split; auto.
      * apply Nat.leb_gt in E.
        destruct (deque_append_len f (audio_sample_queue (pipeline w)))
          as (_ & Hl & Hm); [lia|].
        rewrite Hl; try rewrite Hm. repeat split; auto; lia.
  - destruct (step_quiet e w Ha) as (Qc & _ & _ & Qmv & Qma & Qlv & Qla & Qat).
    unfold well_formed. rewrite Qc, Qmv, Qma.
    repeat split; auto; try lia.
    intros Hoff. destruct Qat as [Q|[Q|Q]]; try congruence.
    rewrite Q. auto.
Qed.

Lemma run_well_formed cfg evs : forall w,
  well_formed cfg (pipeline w) -> well_formed cfg (pipeline (run evs w)).
Proof.
  induction evs as [|e evs IH]; intros w H; simpl; [exact H|].
  apply IH. apply step_well_formed. exact H.
Qed.

Lemma step_video_stats e w :
  is_arrival e = false ->
  video_stats (pipeline (step e w)) = video_stats (pipeline w).
Proof. intros H. apply (step_quiet e w H). Qed.

Lemma step_audio_stats e w :
  is_arrival e = false ->
  audio_stats (pipeline (step e w)) = audio_stats (pipeline w).
Proof. intros H. apply (step_quiet e w H). Qed.

Lemma run_frames_dropped cfg evs : forall w,
  well_formed cfg (pipeline w) ->
  frames_dropped (video_stats (pipeline (run evs w))) =
  frames_dropped (video_stats (pipeline w))
  + rejected_video (PIPELINE_BUFFER_SIZE cfg) evs w.
Proof.
  induction evs as [|e evs IH]; intros w H; [simpl; lia|].
  cbn [run rejected_video].
  rewrite IH by (apply step_well_formed; exact H).
  destruct H as (Hc & _).
  destruct e;
    try (rewrite step_video_stats by reflexivity; simpl; reflexivity);
    simpl.
  - unfold Pipeline.video_on_frame. rewrite Hc.
    destruct (PIPELINE_BUFFER_SIZE cfg <=? Deque.len (video_frame_queue (pipeline w)));
      simpl; lia.
  - unfold Pipeline.audio_on_frame.
    destruct (Deque.maxlen (audio_sample_queue (pipeline w))
              <=? Deque.len (audio_sample_queue (pipeline w))); simpl; lia.
Qed.

Lemma run_samples_dropped cfg evs : forall w,
  well_formed cfg (pipeline w) ->
  samples_dropped (audio_stats (pipeline (run evs w))) =
  samples_dropped (audio_stats (pipeline w))
  + rejected_audio (PIPELINE_BUFFER_SIZE cfg * 10) evs w.
Proof.
  induction evs as [|e evs IH]; intros w H; [simpl; lia|].
  cbn [run rejected_audio].
  rewrite IH by (apply step_well_formed; exact H).
  destruct H as (Hc & _ & Hma & _).
  destruct e;
    try (rewrite step_audio_stats by reflexivity; simpl; reflexivity);
    simpl.
  - unfold Pipeline.video_on_frame.
    destruct (PIPELINE_BUFFER_SIZE (config (pipeline w))
              <=? Deque.len (video_frame_queue (pipeline w))); simpl; lia.
  - unfold Pipeline.audio_on_frame. rewrite Hma.
    destruct (PIPELINE_BUFFER_SIZE cfg * 10
              <=? Deque.len (audio_sample_queue (pipeline w))); simpl; lia.
Qed.

(** C1.  Along every history of the bridge, each ingestion queue stays
    within its fixed capacity (the configured buffer size for video, ten
    times that for audio); an arrival that meets a full queue returns at
    once with the queue untouched and only its dropped counter raised by
    one, while an arrival below capacity is appended at the tail; and each
    dropped counter equals the number of arrivals that met a full queue. *)
Theorem C1_queue_bounded_drops_counted (cfg : Config) (evs : list event) :
  let cap := PIPELINE_BUFFER_SIZE cfg in
  let p := pipeline (run evs (boot cfg)) in
  Deque.len (video_frame_queue p) <= cap /\
  Deque.len (audio_sample_queue p) <= cap * 10 /\
  frames_dropped (video_stats p) = rejected_video cap evs (boot cfg) /\
  samples_dropped (audio_stats p) = rejected_audio (cap * 10) evs (boot cfg) /\
  (forall f now,
      let p' := Pipeline.video_on_frame f now p in
      if cap <=? Deque.len (video_frame_queue p)
      then video_frame_queue p' = video_frame_queue p /\
           frames_dropped (video_stats p') = frames_dropped (video_stats p) + 1 /\
           frames_received (video_stats p') = frames_received (video_stats p)
      else Deque.items (video_frame_queue p')
           = Deque.items (video_frame_queue p) ++ [f] /\
           frames_dropped (video_stats p') = frames_dropped (video_stats p) /\
           frames_received (video_stats p') = frames_received (video_stats p) + 1) /\
  (forall f now,
      let p' := Pipeline.audio_on_frame f now p in
      if cap * 10 <=? Deque.len (audio_sample_queue p)
      then audio_sample_queue p' = audio_sample_queue p /\
           samples_dropped (audio_stats p') = samples_dropped (audio_stats p) + 1 /\
           samples_received (audio_stats p') = samples_received (audio_stats p)
      else Deque.items (audio_sample_queue p')
           = Deque.items (audio_sample_queue p) ++ [f] /\
           samples_dropped (audio_stats p') = samples_dropped (audio_stats p) /\
           samples_received (audio_stats p') = samples_received (audio_stats p) + 1).
Proof.
  intros cap p.
  pose proof (run_well_formed cfg evs (boot cfg) (boot_well_formed cfg))
    as (Hc & Hmv & Hma & Hlv & Hla & _).
  fold p in Hc, Hmv, Hma, Hlv, Hla. fold cap in Hmv, Hma, Hlv, Hla.
  split; [exact Hlv|]. split; [exact Hla|].
  split.
  { unfold p. rewrite (run_frames_dropped cfg) by apply boot_well_formed.
    reflexivity. }
  split.
  { unfold p. rewrite (run_samples_dropped cfg) by apply boot_well_formed.
    reflexivity. }
  split.
  - intros f now p'. unfold p', Pipeline.video_on_frame. rewrite Hc. fold cap.
    destruct (cap <=? Deque.len (video_frame_queue p)) eqn:E; simpl.
    + repeat split.
    + apply Nat.leb_gt in E.
      destruct (deque_append_len f (video_frame_queue p)) as (Hi & _); [lia|].
      simpl in Hi. rewrite Hi. repeat split.
  - intros f now p'. unfold p', Pipeline.audio_on_frame. rewrite Hma.
    destruct (cap * 10 <=? Deque.len (audio_sample_queue p)) eqn:E; simpl.
    + repeat split.
    + apply Nat.leb_gt in E.
      destruct (deque_append_len f (audio_sample_queue p)) as (Hi & _); [lia|].
      simpl in Hi. rewrite Hi. repeat split.
Qed.

(** ** The smoothed rate *)

Lemma Qltb_true x y : Pipeline.Qltb x y = true <-> (x < y)%Q.
Proof.
  unfold Pipeline.Qltb. rewrite negb_true_iff.
  split; intros H.
  - apply Qnot_le_lt. intros Hle. apply Qle_bool_iff in Hle. congruence.
  - destruct (Qle_bool y x) eqn:E; [|reflexivity].
    apply Qle_bool_iff in E. apply Qle_not_lt in E. contradiction.
Qed.

Lemma Qltb_false x y : Pipeline.Qltb x y = false <-> (y <= x)%Q.
Proof.
  unfold Pipeline.Qltb. rewrite negb_false_iff. apply Qle_bool_iff.
Qed.

Lemma instant_nonneg dt : (0 <= instant dt)%Q.
Proof.
  unfold instant. destruct (Pipeline.Qltb 0 dt) eqn:E.
  - apply Qltb_true in E. apply Qlt_le_weak.
    unfold Qdiv. rewrite Qmult_1_l. apply Qinv_lt_0_compat. exact E.
  - apply Qle_refl.
Qed.

Lemma ema_step_pos sm dt : (0 < sm)%Q -> (0 < ema_step sm dt)%Q.
Proof.
  intros H. unfold ema_step. pose proof (instant_nonneg dt). lra.
Qed.

#[local] Instance ema_step_proper : Proper (Qeq ==> eq ==> Qeq) ema_step.
Proof. intros a b Hab d d' <-. unfold ema_step. rewrite Hab. reflexivity. Qed.













(** Six arrivals into a video queue of capacity five: five stored in
    arrival order, one dropped. *)
Example six_into_five :
  let p := pipeline (run [VideoFrame 1 1; VideoFrame 2 2; VideoFrame 3 3;
                          VideoFrame 4 4; VideoFrame 5 5; VideoFrame 6 6]
                         (boot default_config)) in
  Deque.items (video_frame_queue p) = [1; 2; 3; 4; 5] /\
  frames_dropped (video_stats p) = 1 /\ frames_received (video_stats p) = 5.
Proof. vm_compute. repeat split. Qed.

(** The rate after three arrivals at 10.0, 10.5 and 10.5 seconds. *)
Example rate_after_three :
  Qeq (current_fps (video_stats (pipeline
         (run [VideoFrame 0 (10 # 1); VideoFrame 1 (21 # 2); VideoFrame 2 (21 # 2)]
              (boot default_config)))))
      (99 # 100).
Proof. vm_compute. reflexivity. Qed.

(** ** Track registrations *)

Lemma set_pipeline_same w : set_pipeline (pipeline w) w = w.
Proof. destruct w; reflexivity. Qed.

(** C8.  In every reachable state of the bridge and for either media
    kind: when the attached source is Y, detaching with a handle X other
    than Y leaves the whole world unchanged, and detaching with Y itself
    clears that registration. *)
Theorem C8_stale_detach_is_noop
        (cfg : Config) (evs : list event) (k : kind) (X Y : track) :
  let w := run evs (boot cfg) in
  registration k (pipeline w) = Some Y ->
  (Y <> X -> on_pipeline (detach k X) w = w) /\
  (Y = X -> registration k (pipeline (on_pipeline (detach k X) w)) = None).
Proof.
  intros w Hreg.
  pose proof (run_well_formed cfg evs (boot cfg) (boot_well_formed cfg))
    as (Hc & _ & _ & _ & _ & Hoff).
  fold w in Hc, Hoff. clearbody w.
  destruct k; cbn [registration detach] in Hreg |- *.
  - unfold on_pipeline, detach, Pipeline.remove_video_track. rewrite Hreg. split.
    + intros Hne. apply Nat.eqb_neq in Hne. rewrite Hne.
      apply set_pipeline_same.
    + intros ->. rewrite Nat.eqb_refl. reflexivity.
  - assert (Hon : AUDIO_ENABLED (config (pipeline w)) = true).
    { rewrite Hc. destruct (AUDIO_ENABLED cfg) eqn:E; [reflexivity|].
      rewrite (Hoff eq_refl) in Hreg. discriminate. }
    unfold on_pipeline, detach, Pipeline.remove_audio_track. rewrite Hon, Hreg.
    cbn [negb].
    split.
    + intros Hne. apply Nat.eqb_neq in Hne. rewrite Hne.
      apply set_pipeline_same.
    + intros ->. rewrite Nat.eqb_refl. reflexivity.
Qed.

Lemma C8_witness :
  registration Audio
    (pipeline (run [AddVideoTrack 1; AddAudioTrack 2; VideoFrame 0 1]
                   (boot default_config))) = Some 2 /\
  ((2 <> 5 ->
    on_pipeline (detach Audio 5)
      (run [AddVideoTrack 1; AddAudioTrack 2; VideoFrame 0 1]
           (boot default_config))
    = run [AddVideoTrack 1; AddAudioTrack 2; VideoFrame 0 1]
          (boot default_config)) /\
   (2 = 5 ->
    registration Audio
      (pipeline (on_pipeline (detach Audio 5)
         (run [AddVideoTrack 1; AddAudioTrack 2; VideoFrame 0 1]
              (boot default_config)))) = None)).
Proof.
  split; [reflexivity|].
  apply (C8_stale_detach_is_noop default_config
           [AddVideoTrack 1; AddAudioTrack 2; VideoFrame 0 1] Audio 5 2).
  reflexivity.
Defined.

(** ** Stopping the bridge *)

(** C5.  From any state, [stop] returns normally with both ingestion
    queues empty and both registrations cleared, and leaves the received
    and dropped counters, the last-arrival times and the smoothed rate as
    they were; the same holds after a further start and stop. *)
Theorem C5_stop_drains_keeps_stats (w : world) (av : string -> bool) :
  let w1 := exec Pipeline.stop w in
  let w3 := exec Pipeline.stop (exec (Pipeline.start av) w1) in
  fst (Pipeline.stop w) = Ret true /\
  Deque.len (video_frame_queue (pipeline w1)) = 0 /\
  Deque.len (audio_sample_queue (pipeline w1)) = 0 /\
  video_track (pipeline w1) = None /\
  audio_track (pipeline w1) = None /\
  video_stats (pipeline w1) = video_stats (pipeline w) /\
  audio_stats (pipeline w1) = audio_stats (pipeline w) /\
  Deque.len (video_frame_queue (pipeline w3)) = 0 /\
  Deque.len (audio_sample_queue (pipeline w3)) = 0 /\
  video_track (pipeline w3) = None /\
  audio_track (pipeline w3) = None /\
  video_stats (pipeline w3) = video_stats (pipeline w) /\
  audio_stats (pipeline w3) = audio_stats (pipeline w).
Proof.
  intros w1 w3.
  destruct (stop_spec w) as [l Hs].
  assert (H1 : pipeline w1 = stopped (pipeline w)).
  { unfold w1, exec. rewrite Hs. reflexivity. }
  destruct (stop_spec (exec (Pipeline.start av) w1)) as [l' Hs'].
  assert (H3 : pipeline w3 = stopped (pipeline (exec (Pipeline.start av) w1))).
  { unfold w3, exec at 1. rewrite Hs'. reflexivity. }
  destruct (start_pipeline_fields av w1) as (Hi & _).
  assert (Hv : video_stats (pipeline (exec (Pipeline.start av) w1))
               = video_stats (pipeline w1))
    by (apply (f_equal i_video_stats) in Hi; exact Hi).
  assert (Ha : audio_stats (pipeline (exec (Pipeline.start av) w1))
               = audio_stats (pipeline w1))
    by (apply (f_equal i_audio_stats) in Hi; exact Hi).
  rewrite Hs. rewrite H3. simpl. rewrite Hv, Ha, H1. simpl.
  repeat split.
Qed.

(** ** Audio switched off *)

(** C10.  With audio disabled in the configuration, attaching or
    detaching an audio track leaves the whole world unchanged, writing an
    audio sample returns false without touching the device or any state,
    and the status query reports audio as disabled and inactive with zero
    counts and zero queue depth, whatever the audio fields hold. *)
Theorem C10_audio_disabled_noops
        (w : world) (t : track) (io : Gadget.dev_io) (audio_data : bytes) :
  AUDIO_ENABLED (config (pipeline w)) = false ->
  AUDIO_ENABLED (g_config (gadget (devs w))) = false ->
  on_pipeline (Pipeline.add_audio_track t) w = w /\
  on_pipeline (Pipeline.remove_audio_track t) w = w /\
  call_gadget (Gadget.write_audio_sample io audio_data) w = (Ret false, w) /\
  Pipeline.st_audio (Pipeline.get_status (pipeline w))
  = Pipeline.mkAudioStatus false false 0 0 0.
Proof.
  intros Hp Hg. repeat split.
  - unfold on_pipeline, Pipeline.add_audio_track. rewrite Hp.
    apply set_pipeline_same.
  - unfold on_pipeline, Pipeline.remove_audio_track. rewrite Hp.
    apply set_pipeline_same.
  - unfold call_gadget, Gadget.write_audio_sample. unfold_py. simpl.
    rewrite Hg.
    destruct (g_running (gadget (devs w))); [|destruct w; reflexivity].
    destruct (audio_device (gadget (devs w))); destruct w; reflexivity.
  - unfold Pipeline.get_status. simpl. rewrite Hp. reflexivity.
Qed.

Lemma C10_witness :
  AUDIO_ENABLED (config (pipeline audio_off_world)) = false /\
  AUDIO_ENABLED (g_config (gadget (devs audio_off_world))) = false /\
  (on_pipeline (Pipeline.add_audio_track 1) audio_off_world = audio_off_world /\
   on_pipeline (Pipeline.remove_audio_track 9) audio_off_world = audio_off_world /\
   call_gadget (Gadget.write_audio_sample (Gadget.mkDevIo true true) [0; 1])
               audio_off_world
   = (Ret false, audio_off_world) /\
   Pipeline.st_audio (Pipeline.get_status (pipeline audio_off_world))
   = Pipeline.mkAudioStatus false false 0 0 0).
Proof.
  split; [reflexivity|]. split; [reflexivity|].
  apply (C10_audio_disabled_noops audio_off_world 1 (Gadget.mkDevIo true true)
           [0; 1]); reflexivity.
Defined.

(** ** Repeated start and stop *)

Lemma nth_error_update_task f l : forall id n,
  nth_error (Pipeline.update_task id f l) n
  = if n =? id then option_map f (nth_error l n) else nth_error l n.
Proof.
  induction l as [|t l IH]; intros id n.
  - destruct (n =? id); destruct id; destruct n; reflexivity.
  - destruct id as [|id]; destruct n as [|n]; simpl; try reflexivity.
    apply IH.
Qed.


Lemma request_cancel_not_pending t :
  task_st (Pipeline.request_cancel t) <> Pending.
Proof. destruct t as [c [| |]]; discriminate. Qed.

Lemma cancel_and_await_exact t w :
  Pipeline.cancel_and_await t w = (Ret tt, set_loop (cancelled t (loop w)) w).
Proof.
  destruct t as [id|]; simpl.
  - unfold Pipeline.cancel, Pipeline.await_task. unfold_py. simpl.
    rewrite nth_error_update_task, Nat.eqb_refl.
    destruct (nth_error (loop w) id) as [t|]; simpl; [|reflexivity].
    pose proof (request_cancel_not_pending t) as Hnp.
    destruct (task_st (Pipeline.request_cancel t)); simpl;
      [congruence|reflexivity|reflexivity].
  - destruct w; reflexivity.
Qed.

Lemma stop_exact w :
  Pipeline.stop w =
  (Ret true,
   mkWorld (stopped (pipeline w))
           (cancelled (audio_task (pipeline w))
                      (cancelled (video_task (pipeline w)) (loop w)))
           (devs w)).
Proof.
  unfold Pipeline.stop. unfold_py. simpl.
  rewrite cancel_and_await_exact. simpl.
  rewrite cancel_and_await_exact. simpl. reflexivity.
Qed.







(** ** The gadget lifecycle: discovery without privilege *)

Lemma find_existing_video_spec e is_ : forall g,
  exists g',
    Gadget.find_existing_video e is_ g = (Ret tt, g') /\
    is_some (video_device (gadget g'))
    = is_some (video_device (gadget g)) || existsb (video_node_usable e) is_ /\
    audio_device (gadget g') = audio_device (gadget g) /\
    g_running (gadget g') = g_running (gadget g) /\
    g_config (gadget g') = g_config (gadget g) /\
    lifecycle_flags g' = lifecycle_flags g.
Proof.
  induction is_ as [|i rest IH]; intros g.
  - exists g. simpl. rewrite orb_false_r. repeat split.
  - cbn [Gadget.find_existing_video existsb]. unfold video_node_usable at 1.
    destruct (Gadget.path_exists e ("/dev/video" ++ str i)%string);
      [|simpl; apply IH].
    unfold Gadget.open_file. unfold_py.
    destruct (Gadget.open_ok e ("/dev/video" ++ str i)%string); simpl.
    + eexists. split; [reflexivity|]. simpl.
      rewrite orb_true_r. repeat split.
    + apply IH.
Qed.

Lemma open_audio_frame e is_ : forall g,
  exists b g',
    Gadget.open_audio e is_ g = (Ret b, g') /\
    video_device (gadget g') = video_device (gadget g) /\
    g_running (gadget g') = g_running (gadget g) /\
    g_config (gadget g') = g_config (gadget g) /\
    lifecycle_flags g' = lifecycle_flags g.
Proof.
  induction is_ as [|i rest IH]; intros g.
  - exists false, g. simpl. repeat split.
  - cbn [Gadget.open_audio].
    destruct (Gadget.path_exists e ("/dev/snd/pcmC" ++ str i ++ "D0p")%string);
      [|apply IH].
    unfold Gadget.open_file. unfold_py.
    destruct (Gadget.open_ok e ("/dev/snd/pcmC" ++ str i ++ "D0p")%string); simpl.
    + eexists _, _. split; [reflexivity|]. simpl. repeat split.
    + apply IH.
Qed.

Lemma find_existing_gadgets_spec e g :
  exists g',
    Gadget._find_existing_gadgets e g
    = (Ret (is_some (video_device (gadget g)) || video_node_found e), g') /\
    is_some (video_device (gadget g'))
    = is_some (video_device (gadget g)) || video_node_found e /\
    g_running (gadget g') = g_running (gadget g) /\
    g_config (gadget g') = g_config (gadget g) /\
    lifecycle_flags g' = lifecycle_flags g.
Proof.
  unfold Gadget._find_existing_gadgets. unfold_py.
  destruct (find_existing_video_spec e (range 10) g)
    as (g1 & H1 & Hv1 & _ & Hr1 & Hc1 & Hf1).
  rewrite H1.
  destruct (open_audio_frame e (range 10) g1) as (b & g2 & H2 & Hv2 & Hr2 & Hc2 & Hf2).
  rewrite H2. simpl.
  exists g2. rewrite Hv2, Hv1. fold (video_node_found e).
  repeat split; congruence.
Qed.

(** C6.  Without root privilege, [start] called on a gadget that holds no
    video handle goes straight to discovery of existing nodes: it never
    raises, and it returns true, with the gadget running and a video
    handle attached, exactly when some candidate video node exists and
    can be opened; otherwise it returns false and the gadget is not
    running.  The audio nodes play no part in the result, and nothing is
    provisioned or bound. *)
Theorem C6_unprivileged_start (envs : nat -> Gadget.env) (g : gworld) :
  Gadget.geteuid (envs 0) <> 0 ->
  video_device (gadget g) = None ->
  exists g',
    Gadget.start envs g = (Ret (video_node_found (envs 0)), g') /\
    g_running (gadget g') = video_node_found (envs 0) /\
    is_some (video_device (gadget g')) = video_node_found (envs 0) /\
    lifecycle_flags g' = lifecycle_flags g.
Proof.
  intros Heuid Hnone. unfold Gadget.start.
  apply Nat.eqb_neq in Heuid. rewrite Heuid. cbn [negb].
  unfold try_except, bind at 1.
  destruct (find_existing_gadgets_spec (envs 0) g)
    as (g1 & H1 & Hv1 & Hr1 & Hc1 & Hf1).
  rewrite H1. rewrite Hnone in *. simpl in Hv1. simpl.
  eexists. split; [reflexivity|]. simpl.
  repeat split; assumption.
Qed.

Lemma C6_witness :
  Gadget.geteuid unprivileged_env <> 0 /\
  video_device (gadget (devs (boot default_config))) = None /\
  exists g',
    Gadget.start (fun _ => unprivileged_env) (devs (boot default_config))
    = (Ret (video_node_found unprivileged_env), g') /\
    g_running (gadget g') = video_node_found unprivileged_env /\
    is_some (video_device (gadget g')) = video_node_found unprivileged_env /\
    lifecycle_flags g' = lifecycle_flags (devs (boot default_config)).
Proof.
  split; [discriminate|]. split; [reflexivity|].
  apply (C6_unprivileged_start (fun _ => unprivileged_env)
           (devs (boot default_config))); [discriminate|reflexivity].
Defined.

(** The third candidate is the usable one; no audio node is there. *)
Example unprivileged_start_finds_video2 :
  let r := Gadget.start (fun _ => unprivileged_env) (devs (boot default_config)) in
  fst r = Ret true /\
  video_device (gadget (snd r)) = Some (mkHandle 3 "/dev/video2") /\
  audio_device (gadget (snd r)) = None /\
  g_running (gadget (snd r)) = true.
Proof. vm_compute. repeat split. Qed.

(** ** The gadget lifecycle: teardown *)

Lemma handle_eqb_refl h : Gadget.handle_eqb h h = true.
Proof.
  unfold Gadget.handle_eqb. rewrite Nat.eqb_refl, String.eqb_refl. reflexivity.
Qed.

Lemma released_not_open h l :
  ~ In h (filter (fun x => negb (Gadget.handle_eqb x h)) l).
Proof.
  intros Hin. apply filter_In in Hin. destruct Hin as [_ H].
  rewrite handle_eqb_refl in H. discriminate.
Qed.

Lemma still_not_open h h' l :
  ~ In h l -> ~ In h (filter (fun x => negb (Gadget.handle_eqb x h')) l).
Proof.
  intros Hn Hin. apply filter_In in Hin. tauto.
Qed.

(** When the video handle fails to close, [stop] gives up: the audio
    handle is never closed, the gadget stays marked as running and
    [stop] returns false. *)
Lemma C7_counterexample :
  let r := Gadget.stop failing_close_env running_gadget in
  fst r = Ret false /\
  audio_device (gadget (snd r)) = Some (mkHandle 4 "/dev/snd/pcmC0D0p") /\
  In (mkHandle 4 "/dev/snd/pcmC0D0p") (open_files (snd r)) /\
  g_running (gadget (snd r)) = true /\
  udc_writes (snd r) = udc_writes running_gadget.
Proof.
  vm_compute. repeat split. left. reflexivity.
Qed.

(** C7 (amended).  [stop], from any state and in any environment, never
    raises.  It returns true exactly when no close of a held handle
    fails, and then every held handle is closed and cleared and the
    gadget is marked as not running; when a close fails the rest of the
    teardown is skipped and the running flag keeps its value.  The empty
    binding is written to the controller only when the closes went
    through, provisioning had completed and the process is root. *)
Theorem C7_stop_best_effort (e : Gadget.env) (g : gworld) :
  let ok := closes_ok e (gadget g) in
  exists g',
    Gadget.stop e g = (Ret ok, g') /\
    udc_writes g'
    = udc_writes g
      ++ (if ok && gadget_configured (gadget g) && (Gadget.geteuid e =? 0)
             && Gadget.udc_write_ok e
          then [""] else []) /\
    if ok
    then video_device (gadget g') = None /\
         audio_device (gadget g') = None /\
         g_running (gadget g') = false /\
         not_open (video_device (gadget g)) g' /\
         not_open (audio_device (gadget g)) g'
    else g_running (gadget g') = g_running (gadget g).
Proof.
  unfold closes_ok, Gadget.stop, Gadget._disable_gadget, Gadget.write_udc,
    Gadget.close_file, not_open.
  unfold_py.
  destruct g as [[cfg vd ad r conf] files nfd written udc]. simpl.
  destruct vd as [hv|]; destruct ad as [ha|];
    repeat (simpl;
            match goal with
            | |- context [Gadget.close_ok e ?h] => destruct (Gadget.close_ok e h)
            end);
    simpl; destruct conf; destruct (Gadget.geteuid e =? 0);
    destruct (Gadget.udc_write_ok e); simpl;
    eexists; (split; [reflexivity|]); simpl; rewrite ?app_nil_r;
    repeat split;
    auto using released_not_open, still_not_open.
Qed.

(** ** The gadget lifecycle: discovery with the capability query *)

(** What does hold of the video scan: it reports success only with a
    handle attached whose node answers the query with a name that starts
    with the configured gadget name. *)
Lemma open_video_accepts_only_matching e is_ : forall g g',
  Gadget.open_video e is_ g = (Ret true, g') ->
  exists h card,
    video_device (gadget g') = Some h /\
    Gadget.querycap e (h_path h) = Some card /\
    String.prefix (UVC_DEVICE_NAME (g_config (gadget g'))) card = true.
Proof.
  induction is_ as [|i rest IH]; intros g g' H.
  - discriminate H.
  - cbn [Gadget.open_video] in H.
    remember ("/dev/video" ++ str i)%string as path eqn:Hpath. clear Hpath.
    destruct (Gadget.path_exists e path); [|eapply IH; exact H].
    unfold Gadget.open_file, Gadget.ioctl_querycap, Gadget.close_file in H.
    unfold_py.
    destruct (Gadget.open_ok e path); simpl in H; [|eapply IH; exact H].
    destruct (Gadget.querycap e path) as [card|] eqn:Hq; simpl in H.
    + destruct (String.prefix (UVC_DEVICE_NAME (g_config (gadget g))) card) eqn:Hp;
        simpl in H.
      * injection H as <-. simpl. eexists _, card. simpl. repeat split; assumption.
      * eapply IH; exact H.
    + destruct (Gadget.close_ok e _); simpl in H; eapply IH; exact H.
Qed.

(** C3, at the failing input.  A privileged start meets one video node,
    an ordinary webcam: the query succeeds, the name does not match, and
    the node is neither closed nor dropped.  When discovery gives up
    after its last attempt, returning false, that node is still open and
    still attached as the video device.  Had the query raised instead,
    the same node would have been closed and the attribute cleared.
    With three nodes of which only the third matches, the third is
    returned and is the only file left open. *)
Theorem C3_nonmatching_candidate_left_open :
  (let r := Gadget._open_devices (fun _ => foreign_camera_env)
                                 (devs (boot default_config)) in
   fst r = Ret false /\
   video_device (gadget (snd r)) = Some (mkHandle 12 "/dev/video0") /\
   open_files (snd r) = [mkHandle 12 "/dev/video0"]) /\
  (let r := Gadget._open_devices (fun _ => unqueryable_camera_env)
                                 (devs (boot default_config)) in
   fst r = Ret false /\
   video_device (gadget (snd r)) = None /\
   open_files (snd r) = []) /\
  (let r := Gadget._open_devices (fun _ => third_matches_env)
                                 (devs (boot no_audio_config)) in
   fst r = Ret true /\
   video_device (gadget (snd r)) = Some (mkHandle 5 "/dev/video2") /\
   open_files (snd r) = [mkHandle 5 "/dev/video2"]).
Proof.
  split; [|split]; vm_compute; repeat split.
Qed.

(** ** Writes to the device nodes *)

Lemma set_dev_written_nil g : set_dev_written (dev_written g ++ []) g = g.
Proof. rewrite app_nil_r. destruct g; reflexivity. Qed.

Lemma write_video_frame_spec io data g :
  Gadget.write_video_frame io data g =
  (Ret (is_some (video_sink (gadget g)) && io_ok io),
   set_dev_written (dev_written g ++ delivered (video_sink (gadget g)) io data) g).
Proof.
  unfold Gadget.write_video_frame, Gadget.write_flush, video_sink, delivered, io_ok.
  unfold_py. simpl.
  destruct (g_running (gadget g)); simpl; [|rewrite set_dev_written_nil; reflexivity].
  destruct (video_device (gadget g)); simpl;
    [|rewrite set_dev_written_nil; reflexivity].
  destruct (Gadget.write_ok io); destruct (Gadget.flush_ok io); simpl;
    rewrite ?set_dev_written_nil; reflexivity.
Qed.

Lemma write_audio_sample_spec io data g :
  Gadget.write_audio_sample io data g =
  (Ret (is_some (audio_sink (gadget g)) && io_ok io),
   set_dev_written (dev_written g ++ delivered (audio_sink (gadget g)) io data) g).
Proof.
  unfold Gadget.write_audio_sample, Gadget.write_flush, audio_sink, delivered, io_ok.
  unfold_py. simpl.
  destruct (g_running (gadget g)); simpl; [|rewrite set_dev_written_nil; reflexivity].
  destruct (audio_device (gadget g)); simpl;
    [|rewrite set_dev_written_nil; reflexivity].
  destruct (AUDIO_ENABLED (g_config (gadget g))); simpl;
    [|rewrite set_dev_written_nil; reflexivity].
  destruct (Gadget.write_ok io); destruct (Gadget.flush_ok io); simpl;
    rewrite ?set_dev_written_nil; reflexivity.
Qed.

(** The world after the device took [l]. *)
Lemma write_packets_video io packets : forall k w,
  Pipeline.write_packets Gadget.write_video_frame io k packets w =
  (Ret tt,
   set_devs (set_dev_written
               (dev_written (devs w)
                ++ delivered_packets (video_sink (gadget (devs w))) io k packets)
               (devs w)) w).
Proof.
  induction packets as [|pkt rest IH]; intros k w.
  - simpl. unfold ret. rewrite set_dev_written_nil. destruct w; reflexivity.
  - cbn [Pipeline.write_packets delivered_packets]. unfold bind, call_gadget.
    rewrite write_video_frame_spec. rewrite IH. simpl.
    rewrite app_assoc. reflexivity.
Qed.

Lemma video_iteration_step encode io w f rest r :
  Deque.items (video_frame_queue (pipeline w)) = f :: rest ->
  usb_gadget (pipeline w) = Some r ->
  Pipeline.video_iteration encode io w =
  (Ret tt,
   mkWorld
     (set_video_frame_queue
        (Deque.mk rest (Deque.maxlen (video_frame_queue (pipeline w))))
        (pipeline w))
     (loop w)
     (set_dev_written
        (dev_written (devs w)
         ++ match encode f with
            | Some packets =>
              delivered_packets (video_sink (gadget (devs w))) io 0 packets
            | None => []
            end)
        (devs w))).
Proof.
  intros Hq Hg. unfold Pipeline.video_iteration, Pipeline.convert_and_encode,
    Deque.truthy, Deque.popleft.
  unfold_py. simpl. rewrite Hq, Hg. simpl.
  destruct (encode f) as [packets|]; simpl.
  - rewrite write_packets_video. reflexivity.
  - rewrite set_dev_written_nil. reflexivity.
Qed.

Lemma video_loop_drains encode io fs : forall k w r,
  Deque.items (video_frame_queue (pipeline w)) = fs ->
  running (pipeline w) = true ->
  usb_gadget (pipeline w) = Some r ->
  let out := Pipeline.video_loop (List.length fs) encode io k w in
  fst out = Ret tt /\
  Deque.items (video_frame_queue (pipeline (snd out))) = [] /\
  dev_written (devs (snd out))
  = dev_written (devs w)
    ++ delivered_frames (video_sink (gadget (devs w))) encode io k fs.
Proof.
  induction fs as [|f rest IH]; intros k w r Hq Hrun Hg out.
  - unfold out. simpl. rewrite app_nil_r. auto.
  - pose (w1 := mkWorld
       (set_video_frame_queue
          (Deque.mk rest (Deque.maxlen (video_frame_queue (pipeline w))))
          (pipeline w))
       (loop w)
       (set_dev_written
          (dev_written (devs w)
           ++ match encode f with
              | Some packets =>
                delivered_packets (video_sink (gadget (devs w))) (io k) 0 packets
              | None => []
              end)
          (devs w))).
    assert (Hout : out = Pipeline.video_loop (List.length rest) encode io (S k) w1).
    { unfold out. cbn [List.length Pipeline.video_loop].
      unfold bind at 1, gets. rewrite Hrun. unfold bind at 1.
      rewrite (video_iteration_step encode (io k) w f rest r Hq Hg).
      reflexivity. }
    rewrite Hout.
    destruct (IH (S k) w1 r eq_refl Hrun Hg) as (H1 & H2 & H3).
    split; [exact H1|]. split; [exact H2|].
    rewrite H3. cbn [delivered_frames]. simpl. rewrite app_assoc. reflexivity.
Qed.

Lemma write_packets_audio io packets : forall k w,
  Pipeline.write_packets Gadget.write_audio_sample io k packets w =
  (Ret tt,
   set_devs (set_dev_written
               (dev_written (devs w)
                ++ delivered_packets (audio_sink (gadget (devs w))) io k packets)
               (devs w)) w).
Proof.
  induction packets as [|pkt rest IH]; intros k w.
  - simpl. unfold ret. rewrite set_dev_written_nil. destruct w; reflexivity.
  - cbn [Pipeline.write_packets delivered_packets]. unfold bind, call_gadget.
    rewrite write_audio_sample_spec. rewrite IH. simpl.
    rewrite app_assoc. reflexivity.
Qed.

Lemma audio_iteration_step encode io w f rest r :
  Deque.items (audio_sample_queue (pipeline w)) = f :: rest ->
  usb_gadget (pipeline w) = Some r ->
  Pipeline.audio_iteration encode io w =
  (Ret tt,
   mkWorld
     (set_audio_sample_queue
        (Deque.mk rest (Deque.maxlen (audio_sample_queue (pipeline w))))
        (pipeline w))
     (loop w)
     (set_dev_written
        (dev_written (devs w)
         ++ match encode f with
            | Some packets =>
              delivered_packets (audio_sink (gadget (devs w))) io 0 packets
            | None => []
            end)
        (devs w))).
Proof.
  intros Hq Hg. unfold Pipeline.audio_iteration, Pipeline.convert_and_encode,
    Deque.truthy, Deque.popleft.
  unfold_py. simpl. rewrite Hq, Hg. simpl.
  destruct (encode f) as [packets|]; simpl.
  - rewrite write_packets_audio. reflexivity.
  - rewrite set_dev_written_nil. reflexivity.
Qed.

Lemma audio_turns_drains encode io fs : forall k w r,
  Deque.items (audio_sample_queue (pipeline w)) = fs ->
  running (pipeline w) = true ->
  usb_gadget (pipeline w) = Some r ->
  let out := audio_turns (List.length fs) encode io k w in
  fst out = Ret tt /\
  Deque.items (audio_sample_queue (pipeline (snd out))) = [] /\
  dev_written (devs (snd out))
  = dev_written (devs w)
    ++ delivered_frames (audio_sink (gadget (devs w))) encode io k fs.
Proof.
  induction fs as [|f rest IH]; intros k w r Hq Hrun Hg out.
  - unfold out. simpl. rewrite app_nil_r. auto.
  - pose (w1 := mkWorld
       (set_audio_sample_queue
          (Deque.mk rest (Deque.maxlen (audio_sample_queue (pipeline w))))
          (pipeline w))
       (loop w)
       (set_dev_written
          (dev_written (devs w)
           ++ match encode f with
              | Some packets =>
                delivered_packets (audio_sink (gadget (devs w))) (io k) 0 packets
              | None => []
              end)
          (devs w))).
    assert (Hout : out = audio_turns (List.length rest) encode io (S k) w1).
    { unfold out. cbn [List.length audio_turns].
      unfold bind at 1, gets. rewrite Hrun. unfold bind at 1.
      rewrite (audio_iteration_step encode (io k) w f rest r Hq Hg).
      reflexivity. }
    rewrite Hout.
    destruct (IH (S k) w1 r eq_refl Hrun Hg) as (H1 & H2 & H3).
    split; [exact H1|]. split; [exact H2|].
    rewrite H3. cbn [delivered_frames]. simpl. rewrite app_assoc. reflexivity.
Qed.

(** C9.  A write to a device node never raises: it returns true exactly
    when the gadget is running, holds the handle (and, for audio, audio
    is enabled) and both the write and the flush go through; otherwise it
    returns false and no payload is acknowledged.  Both conversion loops
    drop that result and carry on.  With the bridge running and the
    gadget attached, the video loop works through every queued frame and
    the audio loop, when audio is enabled, through every queued sample
    (it returns at once when audio is disabled); whether a packet is
    acknowledged depends on that packet's own write alone, not on the
    fate of the writes before it. *)
Theorem C9_write_failure_returns_false_loop_continues
        (encode : Pipeline.encoder) (io : nat -> nat -> Gadget.dev_io)
        (w : world) (io1 : Gadget.dev_io) (data : bytes) :
  running (pipeline w) = true ->
  usb_gadget (pipeline w) = Some TheGadget ->
  let g := devs w in
  let fs := Deque.items (video_frame_queue (pipeline w)) in
  let out := Pipeline.video_loop (List.length fs) encode io 0 w in
  let afs := Deque.items (audio_sample_queue (pipeline w)) in
  let aout := process_audio (List.length afs) encode io w in
  Gadget.write_video_frame io1 data g
  = (Ret (is_some (video_sink (gadget g)) && io_ok io1),
     set_dev_written (dev_written g ++ delivered (video_sink (gadget g)) io1 data) g) /\
  Gadget.write_audio_sample io1 data g
  = (Ret (is_some (audio_sink (gadget g)) && io_ok io1),
     set_dev_written (dev_written g ++ delivered (audio_sink (gadget g)) io1 data) g) /\
  fst out = Ret tt /\
  Deque.items (video_frame_queue (pipeline (snd out))) = [] /\
  dev_written (devs (snd out))
  = dev_written g ++ delivered_frames (video_sink (gadget g)) encode io 0 fs /\
  fst aout = Ret tt /\
  if AUDIO_ENABLED (config (pipeline w))
  then Deque.items (audio_sample_queue (pipeline (snd aout))) = [] /\
       dev_written (devs (snd aout))
       = dev_written g ++ delivered_frames (audio_sink (gadget g)) encode io 0 afs
  else snd aout = w.
Proof.
  intros Hrun Hg g fs out afs aout.
  split; [apply write_video_frame_spec|].
  split; [apply write_audio_sample_spec|].
  destruct (video_loop_drains encode io fs 0 w TheGadget eq_refl Hrun Hg)
    as (V1 & V2 & V3).
  split; [exact V1|]. split; [exact V2|]. split; [exact V3|].
  assert (Ha : aout = if AUDIO_ENABLED (config (pipeline w))
                      then audio_turns (List.length afs) encode io 0 w
                      else (Ret tt, w)).
  { unfold aout, process_audio, gets, bind, ret.
    destruct (AUDIO_ENABLED (config (pipeline w))); reflexivity. }
  clearbody aout. subst aout.
  destruct (AUDIO_ENABLED (config (pipeline w))).
  - destruct (audio_turns_drains encode io afs 0 w TheGadget eq_refl Hrun Hg)
      as (A1 & A2 & A3).
    cbv zeta in A1, A2, A3. split; [exact A1|]. split; [exact A2|exact A3].
  - split; reflexivity.
Qed.

Lemma C9_witness :
  running (pipeline bridge_with_backlog) = true /\
  usb_gadget (pipeline bridge_with_backlog) = Some TheGadget /\
  (let g := devs bridge_with_backlog in
   let fs := Deque.items (video_frame_queue (pipeline bridge_with_backlog)) in
   let out := Pipeline.video_loop (List.length fs) two_packets first_write_fails
                                  0 bridge_with_backlog in
   let afs := Deque.items (audio_sample_queue (pipeline bridge_with_backlog)) in
   let aout := process_audio (List.length afs) two_packets first_write_fails
                             bridge_with_backlog in
   Gadget.write_video_frame (Gadget.mkDevIo false true) [7] g
   = (Ret (is_some (video_sink (gadget g)) && io_ok (Gadget.mkDevIo false true)),
      set_dev_written
        (dev_written g
         ++ delivered (video_sink (gadget g)) (Gadget.mkDevIo false true) [7]) g) /\
   Gadget.write_audio_sample (Gadget.mkDevIo false true) [7] g
   = (Ret (is_some (audio_sink (gadget g)) && io_ok (Gadget.mkDevIo false true)),
      set_dev_written
        (dev_written g
         ++ delivered (audio_sink (gadget g)) (Gadget.mkDevIo false true) [7]) g) /\
   fst out = Ret tt /\
   Deque.items (video_frame_queue (pipeline (snd out))) = [] /\
   dev_written (devs (snd out))
   = dev_written g
     ++ delivered_frames (video_sink (gadget g)) two_packets first_write_fails 0 fs /\
   fst aout = Ret tt /\
   if AUDIO_ENABLED (config (pipeline bridge_with_backlog))
   then Deque.items (audio_sample_queue (pipeline (snd aout))) = [] /\
        dev_written (devs (snd aout))
        = dev_written g
          ++ delivered_frames (audio_sink (gadget g)) two_packets
                              first_write_fails 0 afs
   else snd aout = bridge_with_backlog).
Proof.
  split; [reflexivity|]. split; [reflexivity|].
  apply (C9_write_failure_returns_false_loop_continues
           two_packets first_write_fails bridge_with_backlog
           (Gadget.mkDevIo false true) [7]); reflexivity.
Defined.

(** The first write fails and returns false; the three packets after it
    are still acknowledged by the video node, in order.  The audio loop
    fares the same on the audio node. *)
Example loop_survives_failed_write :
  fst (Gadget.write_video_frame (Gadget.mkDevIo false true) [7] running_gadget)
  = Ret false /\
  dev_written (devs (snd (Pipeline.video_loop 2 two_packets first_write_fails 0
                                              bridge_with_backlog)))
  = [(mkHandle 3 "/dev/video0", [1; 1]);
     (mkHandle 3 "/dev/video0", [2]);
     (mkHandle 3 "/dev/video0", [2; 2])] /\
  dev_written (devs (snd (process_audio 3 two_packets first_write_fails
                                        bridge_with_backlog)))
  = [(mkHandle 4 "/dev/snd/pcmC0D0p", [5; 5]);
     (mkHandle 4 "/dev/snd/pcmC0D0p", [6]);
     (mkHandle 4 "/dev/snd/pcmC0D0p", [6; 6]);
     (mkHandle 4 "/dev/snd/pcmC0D0p", [7]);
     (mkHandle 4 "/dev/snd/pcmC0D0p", [7; 7])].
Proof. vm_compute. repeat split. Qed.

(** * Further properties of the gadget lifecycle *)

Lemma open_audio_spec e is_ : forall g,
  exists g',
    Gadget.open_audio e is_ g = (Ret (existsb (audio_node_usable e) is_), g') /\
    video_device (gadget g') = video_device (gadget g) /\
    g_running (gadget g') = g_running (gadget g) /\
    lifecycle_flags g' = lifecycle_flags g /\
    payload_untouched g g'.
Proof.
  induction is_ as [|i rest IH]; intros g.
  - exists g. simpl. repeat split.
  - cbn [Gadget.open_audio existsb]. unfold audio_node_usable at 1.
    remember ("/dev/snd/pcmC" ++ str i ++ "D0p")%string as path eqn:Hp. clear Hp.
    destruct (Gadget.path_exists e path); [|simpl; apply IH].
    unfold Gadget.open_file. unfold_py.
    destruct (Gadget.open_ok e path); simpl.
    + eexists. split; [reflexivity|]. simpl. repeat split.
    + apply IH.
Qed.

Lemma open_video_spec e is_ : forall g,
  exists g',
    Gadget.open_video e is_ g
    = (Ret (existsb (video_candidate_matches e (g_config (gadget g))) is_), g') /\
    audio_device (gadget g') = audio_device (gadget g) /\
    g_running (gadget g') = g_running (gadget g) /\
    lifecycle_flags g' = lifecycle_flags g /\
    payload_untouched g g' /\
    match find (video_candidate_matches e (g_config (gadget g))) is_ with
    | Some i => exists n,
        video_device (gadget g') = Some (mkHandle n ("/dev/video" ++ str i))
    | None => True
    end.
Proof.
  induction is_ as [|i rest IH]; intros g.
  - exists g. simpl. repeat split.
  - cbn [Gadget.open_video existsb find]. unfold video_candidate_matches at 1 3.
    remember ("/dev/video" ++ str i)%string as path eqn:Hp.
    destruct (Gadget.path_exists e path); [|simpl; apply IH].
    unfold Gadget.open_file, Gadget.ioctl_querycap, Gadget.close_file.
    unfold_py.
    destruct (Gadget.open_ok e path); simpl; [|apply IH].
    destruct (Gadget.querycap e path) as [card|]; simpl.
    + destruct (String.prefix (UVC_DEVICE_NAME (g_config (gadget g))) card); simpl.
      * eexists. split; [reflexivity|]. simpl. repeat split.
        eexists. rewrite Hp. reflexivity.
      * match goal with
        | |- context [Gadget.open_video e rest ?g1] =>
          destruct (IH g1) as (g' & H & Ha & Hr & Hf & (Hc & Hw) & Hfind)
        end.
        exists g'. simpl in *. rewrite H. repeat split; assumption.
    + destruct (Gadget.close_ok e _); simpl;
        match goal with
        | |- context [Gadget.open_video e rest ?g1] =>
          destruct (IH g1) as (g' & H & Ha & Hr & Hf & (Hc & Hw) & Hfind)
        end;
        exists g'; simpl in *; rewrite H; repeat split; assumption.
Qed.

Lemma open_devices_retry_spec envs retries : forall g,
  exists g',
    Gadget.open_devices_retry envs retries g
    = (Ret (existsb (fun r => attempt_ok (envs r) (g_config (gadget g))) retries),
       g') /\
    g_running (gadget g') = g_running (gadget g) /\
    lifecycle_flags g' = lifecycle_flags g /\
    payload_untouched g g'.
Proof.
  induction retries as [|r rest IH]; intros g.
  - exists g. simpl. repeat split.
  - cbn [Gadget.open_devices_retry existsb]. unfold bind at 1.
    destruct (open_video_spec (envs r) (range 10) g)
      as (g1 & H1 & _ & Hr1 & Hf1 & (Hc1 & Hw1) & _).
    rewrite H1. unfold bind at 1, gets. unfold bind at 1.
    unfold attempt_ok at 1. rewrite Hc1.
    destruct (AUDIO_ENABLED (g_config (gadget g))).
    + destruct (open_audio_spec (envs r) (range 10) g1)
        as (g2 & H2 & _ & Hr2 & Hf2 & (Hc2 & Hw2)).
      rewrite H2.
      destruct (existsb (video_candidate_matches (envs r) (g_config (gadget g)))
                        (range 10)
                && existsb (audio_node_usable (envs r)) (range 10)).
      * exists g2. simpl. unfold payload_untouched.
        repeat split; congruence.
      * destruct (IH g2) as (g3 & H3 & Hr3 & Hf3 & (Hc3 & Hw3)).
        exists g3. simpl. rewrite H3. rewrite Hc2, Hc1.
        unfold payload_untouched. repeat split; congruence.
    + unfold ret. rewrite andb_true_r.
      destruct (existsb (video_candidate_matches (envs r) (g_config (gadget g)))
                        (range 10)).
      * exists g1. simpl. unfold payload_untouched. repeat split; congruence.
      * destruct (IH g1) as (g3 & H3 & Hr3 & Hf3 & (Hc3 & Hw3)).
        exists g3. simpl. rewrite H3. rewrite Hc1.
        unfold payload_untouched. repeat split; congruence.
Qed.

Lemma configure_gadget_spec e g :
  Gadget._configure_gadget e g =
  (Ret (Gadget.configfs_writes_ok e),
   if Gadget.configfs_writes_ok e
   then set_gadget (set_gadget_configured true (gadget g)) g
   else g).
Proof.
  unfold Gadget._configure_gadget. unfold_py.
  destruct (Gadget.configfs_writes_ok e); reflexivity.
Qed.

Lemma enable_gadget_spec e g :
  Gadget._enable_gadget e g =
  (Ret (is_some (first_controller e) && Gadget.udc_write_ok e),
   match first_controller e with
   | Some u => if Gadget.udc_write_ok e
               then set_udc_writes (udc_writes g ++ [u]) g else g
   | None => g
   end).
Proof.
  unfold Gadget._enable_gadget, Gadget.write_udc, first_controller. unfold_py.
  destruct (Gadget.path_exists e "/sys/class/udc"); [|reflexivity].
  destruct (Gadget.listdir e "/sys/class/udc") as [|u rest]; [reflexivity|].
  destruct (String.eqb u ""); [reflexivity|].
  destruct (Gadget.udc_write_ok e); reflexivity.
Qed.

Lemma open_devices_spec envs g :
  exists g',
    Gadget._open_devices envs g
    = (Ret (discovery_ok envs (g_config (gadget g))), g') /\
    g_running (gadget g') = g_running (gadget g) /\
    lifecycle_flags g' = lifecycle_flags g /\
    payload_untouched g g'.
Proof.
  unfold Gadget._open_devices, try_except, discovery_ok.
  destruct (open_devices_retry_spec envs (range 10) g) as (g' & H & Hr & Hf & Hp).
  rewrite H. exists g'. auto.
Qed.

Lemma find_existing_video_payload e is_ : forall g,
  dev_written (snd (Gadget.find_existing_video e is_ g)) = dev_written g.
Proof.
  induction is_ as [|i rest IH]; intros g; [reflexivity|].
  cbn [Gadget.find_existing_video].
  remember ("/dev/video" ++ str i)%string as path eqn:Hp. clear Hp.
  destruct (Gadget.path_exists e path); [|apply IH].
  unfold Gadget.open_file. unfold_py.
  destruct (Gadget.open_ok e path); simpl; [reflexivity|apply IH].
Qed.

Lemma find_existing_gadgets_payload e g :
  dev_written (snd (Gadget._find_existing_gadgets e g)) = dev_written g.
Proof.
  unfold Gadget._find_existing_gadgets. unfold_py.
  pose proof (find_existing_video_payload e (range 10) g) as Hv.
  destruct (find_existing_video_spec e (range 10) g) as (g1 & H1 & _).
  rewrite H1 in *. simpl in Hv.
  destruct (open_audio_spec e (range 10) g1) as (g2 & H2 & _ & _ & _ & (_ & Hw)).
  rewrite H2. simpl. congruence.
Qed.

(** [start], in full: its value and what it leaves behind. *)
Lemma start_spec envs g :
  let e := envs 0 in
  let root := Gadget.geteuid e =? 0 in
  exists g',
    Gadget.start envs g = (Ret (start_result envs (gadget g)), g') /\
    payload_untouched g g' /\
    g_running (gadget g')
    = (if root then g_running (gadget g) || start_result envs (gadget g)
       else start_result envs (gadget g)) /\
    gadget_configured (gadget g')
    = gadget_configured (gadget g) || root && provisioned e /\
    udc_writes g'
    = udc_writes g
      ++ (if root && bound e
          then match first_controller e with Some u => [u] | None => [] end
          else []).
Proof.
  intros e root. unfold Gadget.start, start_result, bound, provisioned.
  fold e. fold root. destruct root eqn:Hroot; cbn [negb].
  - unfold try_except.
    destruct (Gadget.path_exists e "/sys/kernel/config"); cbn [negb andb].
    2:{ exists g. unfold ret, payload_untouched. simpl.
        rewrite !orb_false_r, app_nil_r. repeat split. }
    unfold bind at 1. rewrite configure_gadget_spec.
    destruct (Gadget.configfs_writes_ok e); cbn [negb andb].
    2:{ exists g. unfold ret, payload_untouched. simpl.
        rewrite !orb_false_r, app_nil_r. repeat split. }
    unfold bind at 1. rewrite enable_gadget_spec.
    destruct (first_controller e) as [u|]; cbn [is_some negb andb].
    2:{ eexists. unfold ret, payload_untouched. split; [reflexivity|]. simpl.
        rewrite !orb_false_r, orb_true_r, app_nil_r. repeat split. }
    destruct (Gadget.udc_write_ok e); cbn [negb andb].
    2:{ eexists. unfold ret, payload_untouched. split; [reflexivity|]. simpl.
        rewrite !orb_false_r, orb_true_r, app_nil_r. repeat split. }
    unfold bind at 1.
    match goal with
    | |- context [Gadget._open_devices envs ?g1] =>
      destruct (open_devices_spec envs g1) as (g2 & H & Hr & Hf & (Hc & Hw));
        rewrite H
    end.
    simpl in Hr, Hf, Hc, Hw. unfold lifecycle_flags in Hf. simpl in Hf.
    injection Hf as Hconf Hudc. simpl.
    destruct (discovery_ok envs (g_config (gadget g))); cbn [negb].
    + eexists. unfold payload_untouched. unfold_py. split; [reflexivity|].
      simpl. rewrite !orb_true_r. repeat split; assumption.
    + exists g2. unfold payload_untouched, ret. split; [reflexivity|].
      rewrite !orb_false_r, orb_true_r. repeat split; assumption.
  - unfold try_except, bind at 1.
    destruct (find_existing_gadgets_spec e g) as (g1 & H & Hv & Hr & Hc & Hf).
    pose proof (find_existing_gadgets_payload e g) as Hw.
    rewrite H in *. simpl in Hw. unfold_py. simpl.
    eexists. split; [reflexivity|]. simpl.
    unfold lifecycle_flags in Hf. injection Hf as Hconf Hudc.
    rewrite orb_false_r, app_nil_r.
    unfold payload_untouched. simpl. repeat split; assumption.
Qed.





(** X3.  One pass over the video candidates attaches the lowest-numbered
    candidate that matches, whatever came before it. *)
Theorem open_video_attaches_first_match (e : Gadget.env) (g : gworld) :
  exists g',
    Gadget.open_video e (range 10) g
    = (Ret (existsb (video_candidate_matches e (g_config (gadget g))) (range 10)),
       g') /\
    match find (video_candidate_matches e (g_config (gadget g))) (range 10) with
    | Some i => option_map h_path (video_device (gadget g'))
                = Some ("/dev/video" ++ str i)%string
    | None => True
    end.
Proof.
  destruct (open_video_spec e (range 10) g) as (g' & H & _ & _ & _ & _ & Hfind).
  exists g'. split; [exact H|].
  destruct (find (video_candidate_matches e (g_config (gadget g))) (range 10));
    [|exact I].
  destruct Hfind as [fd0 Hfd]. rewrite Hfd. reflexivity.
Qed.


(** X4.  With privilege and provisioning in order but no controller to
    bind to, [start] returns false and leaves the gadget marked as
    configured: provisioning is not rolled back, no device is opened and
    nothing is written to the controller attribute. *)
Theorem start_without_controller (envs : nat -> Gadget.env) (g : gworld) :
  Gadget.geteuid (envs 0) = 0 ->
  provisioned (envs 0) = true ->
  first_controller (envs 0) = None ->
  Gadget.start envs g
  = (Ret false, set_gadget (set_gadget_configured true (gadget g)) g).
Proof.
  intros Heuid Hprov Hudc. unfold provisioned in Hprov.
  apply andb_true_iff in Hprov. destruct Hprov as [Hm Hw].
  unfold Gadget.start. rewrite Heuid, Hm. cbn [Nat.eqb negb].
  unfold try_except, bind at 1. rewrite configure_gadget_spec, Hw. cbn [negb].
  unfold bind at 1. rewrite enable_gadget_spec, Hudc. reflexivity.
Qed.

Lemma start_without_controller_witness :
  Gadget.geteuid no_controller_env = 0 /\
  provisioned no_controller_env = true /\
  first_controller no_controller_env = None /\
  Gadget.start (fun _ => no_controller_env) (devs (boot default_config))
  = (Ret false,
     set_gadget (set_gadget_configured true (gadget (devs (boot default_config))))
                (devs (boot default_config))).
Proof.
  split; [reflexivity|]. split; [reflexivity|]. split; [reflexivity|].
  apply (start_without_controller (fun _ => no_controller_env)
           (devs (boot default_config))); reflexivity.
Defined.


Lemma open_devices_retry_accepts envs retries : forall g g',
  Gadget.open_devices_retry envs retries g = (Ret true, g') ->
  exists r h card,
    In r retries /\
    video_device (gadget g') = Some h /\
    Gadget.querycap (envs r) (h_path h) = Some card /\
    String.prefix (UVC_DEVICE_NAME (g_config (gadget g'))) card = true.
Proof.
  induction retries as [|r rest IH]; intros g g' H.
  - discriminate H.
  - cbn [Gadget.open_devices_retry] in H. unfold bind at 1 in H.
    destruct (Gadget.open_video (envs r) (range 10) g) as [[vf|ex] g1] eqn:Hv.
    2:{ discriminate H. }
    unfold bind at 1, gets in H. unfold bind at 1 in H.
    assert (Haudio : exists af g2,
               (if AUDIO_ENABLED (g_config (gadget g1))
                then Gadget.open_audio (envs r) (range 10)
                else ret true) g1 = (Ret af, g2) /\
               video_device (gadget g2) = video_device (gadget g1) /\
               g_config (gadget g2) = g_config (gadget g1)).
    { destruct (AUDIO_ENABLED (g_config (gadget g1))).
      - destruct (open_audio_spec (envs r) (range 10) g1)
          as (g2 & H2 & Hvd & _ & _ & (Hc & _)).
        eexists _, g2. split; [exact H2|]. auto.
      - exists true, g1. repeat split. }
    destruct Haudio as (af & g2 & Ha & Hvd & Hc). rewrite Ha in H.
    destruct (vf && af) eqn:Hboth.
    + injection H as <-.
      apply andb_true_iff in Hboth. destruct Hboth as [-> _].
      destruct (open_video_accepts_only_matching _ _ _ _ Hv)
        as (h & card & Hh & Hq & Hp).
      exists r, h, card. rewrite Hvd, Hc. repeat split; auto. left. reflexivity.
    + destruct (IH g2 g' H) as (r' & h & card & Hin & Hrest).
      exists r', h, card. split; [right; exact Hin|exact Hrest].
Qed.

(** X5.  When a privileged [start] returns true, the gadget is
    provisioned and running, it has been bound to the first controller
    of the registry and to no other, and the video handle it holds is on
    a node that, in one of the ten attempts, answered the capability
    query with a name starting with the configured gadget name. *)
Theorem privileged_start_success
        (envs : nat -> Gadget.env) (g : gworld) :
  Gadget.geteuid (envs 0) = 0 ->
  fst (Gadget.start envs g) = Ret true ->
  let g' := snd (Gadget.start envs g) in
  g_running (gadget g') = true /\
  gadget_configured (gadget g') = true /\
  (exists u rest,
      Gadget.listdir (envs 0) "/sys/class/udc" = u :: rest /\
      udc_writes g' = udc_writes g ++ [u]) /\
  (exists r h card,
      r < 10 /\
      video_device (gadget g') = Some h /\
      Gadget.querycap (envs r) (h_path h) = Some card /\
      String.prefix (UVC_DEVICE_NAME (g_config (gadget g'))) card = true).
Proof.
  intros Heuid Hfst g'.
  assert (H : Gadget.start envs g = (Ret true, g')).
  { unfold g'. destruct (Gadget.start envs g) as [r gx]. simpl in Hfst.
    subst r. reflexivity. }
  clearbody g'. clear Hfst.
  unfold Gadget.start in H. rewrite Heuid in H.
  cbn [Nat.eqb negb] in H. unfold try_except in H.
  destruct (Gadget.path_exists (envs 0) "/sys/kernel/config");
    [|discriminate H].
  cbn [negb] in H. unfold bind at 1 in H. rewrite configure_gadget_spec in H.
  destruct (Gadget.configfs_writes_ok (envs 0)); [|discriminate H].
  cbn [negb] in H. unfold bind at 1 in H. rewrite enable_gadget_spec in H.
  unfold first_controller in H.
  destruct (Gadget.path_exists (envs 0) "/sys/class/udc"); [|discriminate H].
  destruct (Gadget.listdir (envs 0) "/sys/class/udc") as [|u rest] eqn:Hls;
    [discriminate H|].
  destruct (String.eqb u ""); [discriminate H|].
  cbn [is_some andb] in H.
  destruct (Gadget.udc_write_ok (envs 0)); [|discriminate H].
  cbn [negb] in H. unfold bind at 1 in H.
  match type of H with
  | context [Gadget._open_devices envs ?g1] =>
    destruct (open_devices_spec envs g1) as (g2 & Hod & _ & Hf & _);
      set (g1' := g1) in *
  end.
  rewrite Hod in H.
  destruct (discovery_ok envs (g_config (gadget g1'))) eqn:Hd;
    [|discriminate H].
  cbn [negb] in H. unfold_py. injection H as <-.
  unfold lifecycle_flags in Hf. injection Hf as Hconf Hudc.
  unfold Gadget._open_devices, try_except in Hod.
  destruct (Gadget.open_devices_retry envs (range 10) g1') as [[b|ex] g3] eqn:Hr.
  2:{ destruct (Py.is_Exception ex); discriminate Hod. }
  injection Hod as -> ->.
  destruct (open_devices_retry_accepts envs (range 10) g1' g2 Hr)
    as (r & h & card & Hin & Hh & Hq & Hp).
  simpl. split; [reflexivity|]. split; [rewrite Hconf; reflexivity|].
  split.
  - exists u, rest. split; [reflexivity|]. rewrite Hudc. reflexivity.
  - exists r, h, card. split; [apply in_seq in Hin; lia|]. auto.
Qed.

Lemma privileged_start_success_witness :
  Gadget.geteuid healthy_env = 0 /\
  fst (Gadget.start (fun _ => healthy_env) (devs (boot default_config)))
  = Ret true /\
  (let g' := snd (Gadget.start (fun _ => healthy_env)
                               (devs (boot default_config))) in
   g_running (gadget g') = true /\
   gadget_configured (gadget g') = true /\
   (exists u rest,
       Gadget.listdir healthy_env "/sys/class/udc" = u :: rest /\
       udc_writes g' = udc_writes (devs (boot default_config)) ++ [u]) /\
   (exists r h card,
       r < 10 /\
       video_device (gadget g') = Some h /\
       Gadget.querycap healthy_env (h_path h) = Some card /\
       String.prefix (UVC_DEVICE_NAME (g_config (gadget g'))) card = true)).
Proof.
  split; [reflexivity|]. split; [vm_compute; reflexivity|].
  apply (privileged_start_success (fun _ => healthy_env)
           (devs (boot default_config))); [reflexivity|vm_compute; reflexivity].
Defined.

(** The healthy machine: bound to the first controller, attached to the
    second video node, the webcam's file released when the attribute was
    re-bound. *)
Example healthy_start :
  let g' := snd (Gadget.start (fun _ => healthy_env) (devs (boot default_config))) in
  udc_writes g' = ["fe980000.usb"] /\
  video_device (gadget g') = Some (mkHandle 4 "/dev/video1") /\
  audio_device (gadget g') = Some (mkHandle 5 "/dev/snd/pcmC0D0p") /\
  open_files g' = [mkHandle 5 "/dev/snd/pcmC0D0p"; mkHandle 4 "/dev/video1"].
Proof. vm_compute. repeat split. Qed.

Lemma find_existing_video_files e is_ : forall g,
  video_device (gadget g) = None ->
  let g' := snd (Gadget.find_existing_video e is_ g) in
  (video_device (gadget g') = video_device (gadget g) /\
   open_files g' = open_files g) \/
  (exists h, video_device (gadget g') = Some h /\
             open_files g' = h :: open_files g).
Proof.
  induction is_ as [|i rest IH]; intros g Hnone; [left; split; reflexivity|].
  cbn [Gadget.find_existing_video].
  remember ("/dev/video" ++ str i)%string as path eqn:Hp. clear Hp.
  destruct (Gadget.path_exists e path); [|apply IH; exact Hnone].
  unfold Gadget.open_file, Gadget.assign_video_device. unfold_py.
  destruct (Gadget.open_ok e path); simpl; [|apply IH; exact Hnone].
  right. eexists. split; [reflexivity|]. rewrite Hnone. reflexivity.
Qed.

Lemma open_audio_files e is_ : forall g,
  audio_device (gadget g) = None ->
  let g' := snd (Gadget.open_audio e is_ g) in
  (audio_device (gadget g') = audio_device (gadget g) /\
   open_files g' = open_files g) \/
  (exists h, audio_device (gadget g') = Some h /\
             open_files g' = h :: open_files g).
Proof.
  induction is_ as [|i rest IH]; intros g Hnone; [left; split; reflexivity|].
  cbn [Gadget.open_audio].
  remember ("/dev/snd/pcmC" ++ str i ++ "D0p")%string as path eqn:Hp. clear Hp.
  destruct (Gadget.path_exists e path); [|apply IH; exact Hnone].
  unfold Gadget.open_file, Gadget.assign_audio_device. unfold_py.
  destruct (Gadget.open_ok e path); simpl; [|apply IH; exact Hnone].
  right. eexists. split; [reflexivity|]. rewrite Hnone. reflexivity.
Qed.

(** X6.  No descriptor is lost on the discovery-only path: an
    unprivileged [start] on a gadget with nothing open, followed by a
    [stop] whose closes go through, returns true and leaves no file open,
    no handle attached and the gadget not running. *)
Theorem unprivileged_start_stop_leaves_nothing_open
        (envs : nat -> Gadget.env) (e2 : Gadget.env) (g : gworld) :
  Gadget.geteuid (envs 0) <> 0 ->
  video_device (gadget g) = None ->
  audio_device (gadget g) = None ->
  open_files g = [] ->
  (forall h, Gadget.close_ok e2 h = true) ->
  let r := Gadget.stop e2 (snd (Gadget.start envs g)) in
  fst r = Ret true /\
  open_files (snd r) = [] /\
  video_device (gadget (snd r)) = None /\
  audio_device (gadget (snd r)) = None /\
  g_running (gadget (snd r)) = false.
Proof.
  intros Heuid Hv Ha Hf Hclose.
  (* the state [start] leaves *)
  assert (Hstart : exists g1,
             snd (Gadget.start envs g) = g1 /\
             open_files g1
             = match audio_device (gadget g1) with Some h => [h] | None => [] end
               ++ match video_device (gadget g1) with Some h => [h] | None => [] end).
  { unfold Gadget.start. apply Nat.eqb_neq in Heuid. rewrite Heuid. cbn [negb].
    unfold try_except, bind at 1, Gadget._find_existing_gadgets, try_except.
    unfold bind at 1.
    pose proof (find_existing_video_files (envs 0) (range 10) g Hv) as Hvf.
    destruct (find_existing_video_spec (envs 0) (range 10) g)
      as (g1 & H1 & _ & Ha1 & _).
    rewrite H1 in *. cbv zeta in Hvf. simpl snd in Hvf.
    unfold bind at 1.
    assert (Ha1' : audio_device (gadget g1) = None) by (rewrite Ha1; exact Ha).
    pose proof (open_audio_files (envs 0) (range 10) g1 Ha1') as Haf.
    destruct (open_audio_spec (envs 0) (range 10) g1)
      as (g2 & H2 & Hv2 & _).
    rewrite H2 in *. cbv zeta in Haf. simpl snd in Haf.
    unfold_py. simpl. eexists. split; [reflexivity|]. simpl.
    rewrite Hv2. rewrite Ha1, Ha in Haf. rewrite Hv, Hf in Hvf.
    destruct Hvf as [[Hvd Hfl]|[hv [Hvd Hfl]]];
      destruct Haf as [[Had Hfl2]|[ha [Had Hfl2]]];
      rewrite Hvd, Had, Hfl2, Hfl; reflexivity. }
  destruct Hstart as (g1 & -> & Hfiles).
  unfold Gadget.stop, Gadget._disable_gadget, Gadget.write_udc, Gadget.close_file.
  unfold_py.
  destruct g1 as [[cfg vd ad run conf] files nfd written udc]. simpl in Hfiles.
  subst files. simpl.
  destruct vd as [hv|]; destruct ad as [ha|]; simpl;
    rewrite ?Hclose; simpl; rewrite ?handle_eqb_refl; simpl;
    rewrite ?Hclose; simpl;
    try (destruct (Gadget.handle_eqb ha hv) eqn:E; simpl;
         rewrite ?handle_eqb_refl; simpl);
    destruct conf; destruct (Gadget.geteuid e2 =? 0);
    destruct (Gadget.udc_write_ok e2); simpl; repeat split.
Qed.

Lemma unprivileged_start_stop_leaves_nothing_open_witness :
  Gadget.geteuid unprivileged_env <> 0 /\
  video_device (gadget (devs (boot default_config))) = None /\
  audio_device (gadget (devs (boot default_config))) = None /\
  open_files (devs (boot default_config)) = [] /\
  (forall h, Gadget.close_ok unprivileged_env h = true) /\
  (let r := Gadget.stop unprivileged_env
              (snd (Gadget.start (fun _ => unprivileged_env)
                                 (devs (boot default_config)))) in
   fst r = Ret true /\
   open_files (snd r) = [] /\
   video_device (gadget (snd r)) = None /\
   audio_device (gadget (snd r)) = None /\
   g_running (gadget (snd r)) = false).
Proof.
  split; [discriminate|]. split; [reflexivity|]. split; [reflexivity|].
  split; [reflexivity|]. split; [intros h; reflexivity|].
  apply (unprivileged_start_stop_leaves_nothing_open
           (fun _ => unprivileged_env) unprivileged_env
           (devs (boot default_config)));
    [discriminate|reflexivity|reflexivity|reflexivity|intros h; reflexivity].
Defined.


(** * Further properties of the bridge *)

(** X7.  [start] never raises and returns true exactly when every codec
    it asks for is available: the encoder named by the configuration
    (the hardware encoder for "H264", with no retry on the software one),
    the H.264 decoder and, if audio is enabled, the PCM encoder and the
    Opus decoder.  Whatever it returns, it leaves the queues, the
    counters, the registrations, the gadget reference and the gadget
    itself as they were. *)
Theorem pipeline_start_needs_codecs (av : string -> bool) (w : world) :
  let out := Pipeline.start av w in
  fst out = Ret (codecs_available av (config (pipeline w))) /\
  ingestion_of (pipeline (snd out)) = ingestion_of (pipeline w) /\
  video_track (pipeline (snd out)) = video_track (pipeline w) /\
  audio_track (pipeline (snd out)) = audio_track (pipeline w) /\
  usb_gadget (pipeline (snd out)) = usb_gadget (pipeline w) /\
  devs (snd out) = devs w.
Proof.
  intros out. split.
  - unfold out, Pipeline.start, Pipeline.codec_create, Pipeline.on_video_encoder,
      Pipeline.on_audio_encoder, Pipeline.on_audio_decoder, Pipeline.create_task,
      codecs_available.
    unfold_py. simpl.
    destruct (String.eqb (VIDEO_CODEC (config (pipeline w))) "H264");
      destruct (AUDIO_ENABLED (config (pipeline w)));
      repeat (simpl; match goal with
                     | |- context [av ?n] => destruct (av n)
                     end); reflexivity.
  - apply (start_pipeline_fields av w).
Qed.

(** With "H264" configured and only software codecs installed, [start]
    fails although the software encoder is there. *)
Example no_software_fallback :
  fst (Pipeline.start software_only (boot default_config)) = Ret false.
Proof. reflexivity. Qed.

Lemma len_append_le {A} (x : A) (d : Deque.t A) :
  Deque.len (Deque.append x d) <= S (Deque.len d).
Proof.
  unfold Deque.append, Deque.len. simpl.
  destruct (Deque.maxlen d <? List.length (Deque.items d ++ [x]));
    [|rewrite length_app; simpl; lia].
  destruct (Deque.items d ++ [x]) eqn:E; simpl; [lia|].
  apply (f_equal (@List.length A)) in E. rewrite length_app in E. simpl in E. lia.
Qed.

Lemma run_arrivals_conserved evs : forall w,
  let p := pipeline w in
  let p' := pipeline (run evs w) in
  frames_received (video_stats p') + frames_dropped (video_stats p')
  = frames_received (video_stats p) + frames_dropped (video_stats p)
    + video_arrivals evs /\
  samples_received (audio_stats p') + samples_dropped (audio_stats p')
  = samples_received (audio_stats p) + samples_dropped (audio_stats p)
    + audio_arrivals evs /\
  (Deque.len (video_frame_queue p) <= frames_received (video_stats p) ->
   Deque.len (video_frame_queue p') <= frames_received (video_stats p')) /\
  (Deque.len (audio_sample_queue p) <= samples_received (audio_stats p) ->
   Deque.len (audio_sample_queue p') <= samples_received (audio_stats p')).
Proof.
  induction evs as [|e evs IH]; intros w p p'.
  - unfold p, p'. simpl. repeat split; auto; lia.
  - unfold p'. cbn [run].
    destruct (IH (step e w)) as (Hv & Ha & Hlv & Hla).
    destruct (is_arrival e) eqn:Harr.
    + destruct e; try discriminate; cbn [video_arrivals audio_arrivals].
      * revert Hv Ha Hlv Hla. cbn [step]. unfold on_pipeline.
        cbn [pipeline set_pipeline]. unfold Pipeline.video_on_frame. fold p.
        destruct (PIPELINE_BUFFER_SIZE (config p) <=? Deque.len (video_frame_queue p));
          cbn [video_stats set_video_stats set_video_frame_queue
               frames_received frames_dropped audio_stats
               video_frame_queue audio_sample_queue];
          intros Hv Ha Hlv Hla.
        -- repeat split; try lia; auto.
        -- pose proof (len_append_le f (video_frame_queue p)).
           repeat split; try lia; auto.
      * revert Hv Ha Hlv Hla. cbn [step]. unfold on_pipeline.
        cbn [pipeline set_pipeline]. unfold Pipeline.audio_on_frame. fold p.
        destruct (Deque.maxlen (audio_sample_queue p)
                  <=? Deque.len (audio_sample_queue p));
          cbn [audio_stats set_audio_stats set_audio_sample_queue
               samples_received samples_dropped video_stats
               video_frame_queue audio_sample_queue];
          intros Hv Ha Hlv Hla.
        -- repeat split; try lia; auto.
        -- pose proof (len_append_le f (audio_sample_queue p)).
           repeat split; try lia; auto.
    + destruct (step_quiet e w Harr) as (_ & Qv & Qa & _ & _ & Qlv & Qla & _).
      fold p in Qv, Qa, Qlv, Qla.
      rewrite Qv in Hv, Hlv. rewrite Qa in Ha, Hla.
      assert (video_arrivals (e :: evs) = video_arrivals evs)
        by (destruct e; try reflexivity; discriminate).
      assert (audio_arrivals (e :: evs) = audio_arrivals evs)
        by (destruct e; try reflexivity; discriminate).
      split; [lia|]. split; [lia|].
      split; intros H1; [apply Hlv|apply Hla]; lia.
Qed.

(** X8.  Every arrival is counted exactly once: along every history the
    received and dropped counters of a kind add up to the number of
    arrivals of that kind, and a queue never holds more samples than were
    counted as received. *)
Theorem arrivals_are_counted_once (cfg : Config) (evs : list event) :
  let p := pipeline (run evs (boot cfg)) in
  frames_received (video_stats p) + frames_dropped (video_stats p)
  = video_arrivals evs /\
  samples_received (audio_stats p) + samples_dropped (audio_stats p)
  = audio_arrivals evs /\
  Deque.len (video_frame_queue p) <= frames_received (video_stats p) /\
  Deque.len (audio_sample_queue p) <= samples_received (audio_stats p).
Proof.
  intros p. destruct (run_arrivals_conserved evs (boot cfg)) as (Hv & Ha & Hlv & Hla).
  fold p in Hv, Ha, Hlv, Hla. simpl in Hv, Ha.
  repeat split; try assumption.
  - apply Hlv. simpl. unfold Deque.len. simpl. lia.
  - apply Hla. simpl. unfold Deque.len. simpl. lia.
Qed.


Lemma run_burst arrivals : forall w,
  let p := pipeline w in
  let p' := pipeline (run (burst arrivals) w) in
  let room := PIPELINE_BUFFER_SIZE (config p) - Deque.len (video_frame_queue p) in
  Deque.maxlen (video_frame_queue p) = PIPELINE_BUFFER_SIZE (config p) ->
  Deque.items (video_frame_queue p')
  = Deque.items (video_frame_queue p) ++ firstn room (map fst arrivals) /\
  frames_dropped (video_stats p')
  = frames_dropped (video_stats p) + (List.length arrivals - room) /\
  frames_received (video_stats p')
  = frames_received (video_stats p) + Nat.min (List.length arrivals) room.
Proof.
  induction arrivals as [|[f now] rest IH]; intros w p p' room Hmax.
  - unfold p', p. simpl. rewrite firstn_nil, app_nil_r. repeat split; lia.
  - unfold p'. cbn [burst map run fst snd]. fold (burst rest).
    set (w1 := step (VideoFrame f now) w).
    assert (Hw1 :
      (PIPELINE_BUFFER_SIZE (config p) <= Deque.len (video_frame_queue p) /\
       config (pipeline w1) = config p /\
       video_frame_queue (pipeline w1) = video_frame_queue p /\
       frames_dropped (video_stats (pipeline w1))
       = frames_dropped (video_stats p) + 1 /\
       frames_received (video_stats (pipeline w1))
       = frames_received (video_stats p)) \/
      (Deque.len (video_frame_queue p) < PIPELINE_BUFFER_SIZE (config p) /\
       config (pipeline w1) = config p /\
       Deque.items (video_frame_queue (pipeline w1))
       = Deque.items (video_frame_queue p) ++ [f] /\
       Deque.maxlen (video_frame_queue (pipeline w1))
       = Deque.maxlen (video_frame_queue p) /\
       frames_dropped (video_stats (pipeline w1))
       = frames_dropped (video_stats p) /\
       frames_received (video_stats (pipeline w1))
       = frames_received (video_stats p) + 1)).
    { unfold w1. cbn [step]. unfold on_pipeline. cbn [pipeline set_pipeline].
      fold p. unfold Pipeline.video_on_frame.
      destruct (PIPELINE_BUFFER_SIZE (config p) <=? Deque.len (video_frame_queue p))
        eqn:E.
      - left. apply Nat.leb_le in E. simpl. repeat split; auto.
      - right. apply Nat.leb_gt in E.
        destruct (deque_append_len f (video_frame_queue p)) as (Hi & _ & Hm);
          [lia|].
        simpl in Hi |- *. rewrite Hi. repeat split; auto. }
    destruct Hw1 as [(Hfull & Hc & Hq & Hd & Hr)|(Hroom & Hc & Hi & Hm & Hd & Hr)].
    + destruct (IH w1) as (Hi' & Hd' & Hr').
      { rewrite Hq, Hc. exact Hmax. }
      rewrite Hi', Hd', Hr', Hq, Hc, Hd, Hr.
      replace (PIPELINE_BUFFER_SIZE (config p) - Deque.len (video_frame_queue p))
        with 0 by lia.
      unfold room. replace (PIPELINE_BUFFER_SIZE (config p)
                            - Deque.len (video_frame_queue p)) with 0 by lia.
      simpl. repeat split; lia.
    + destruct (IH w1) as (Hi' & Hd' & Hr').
      { rewrite Hm, Hc. exact Hmax. }
      rewrite Hi', Hd', Hr', Hc, Hd, Hr, Hi.
      assert (Hlen : Deque.len (video_frame_queue (pipeline w1))
                     = S (Deque.len (video_frame_queue p))).
      { unfold Deque.len. rewrite Hi, length_app. simpl. lia. }
      rewrite Hlen. unfold room.
      destruct (PIPELINE_BUFFER_SIZE (config p) - Deque.len (video_frame_queue p))
        as [|room'] eqn:Eroom; [lia|].
      replace (PIPELINE_BUFFER_SIZE (config p) - S (Deque.len (video_frame_queue p)))
        with room' by lia.
      cbn [map fst firstn List.length]. rewrite <- app_assoc. simpl.
      repeat split; lia.
Qed.

(** X9.  A burst of arrivals with no consumer in between, into the empty
    queue of a fresh bridge: the first arrivals up to the capacity are
    stored, in arrival order, and every later one is dropped. *)
Theorem burst_keeps_the_first (cfg : Config) (arrivals : list (frame * Q)) :
  let cap := PIPELINE_BUFFER_SIZE cfg in
  let p := pipeline (run (burst arrivals) (boot cfg)) in
  Deque.items (video_frame_queue p) = firstn cap (map fst arrivals) /\
  frames_dropped (video_stats p) = List.length arrivals - cap /\
  frames_received (video_stats p) = Nat.min (List.length arrivals) cap.
Proof.
  intros cap p.
  destruct (run_burst arrivals (boot cfg) eq_refl) as (Hi & Hd & Hr).
  fold p in Hi, Hd, Hr. simpl in Hi, Hd, Hr. rewrite Nat.sub_0_r in *.
  auto.
Qed.

Lemma video_on_frame_rate_nonneg f now p :
  (0 <= current_fps (video_stats p))%Q ->
  (0 <= current_fps (video_stats (Pipeline.video_on_frame f now p)))%Q.
Proof.
  intros H. unfold Pipeline.video_on_frame.
  destruct (PIPELINE_BUFFER_SIZE (config p) <=? Deque.len (video_frame_queue p));
    [exact H|].
  cbn [video_stats set_video_stats current_fps].
  match goal with
  | |- context [if Pipeline.Qltb 0 ?dt then _ else _] =>
    fold (instant dt); pose proof (instant_nonneg dt) as Hi
  end.
  destruct (Qeq_bool (current_fps (video_stats p)) 0); [exact Hi|]. lra.
Qed.

(** X10.  Whatever the clock does, backwards jumps and readings at or
    below zero included, the smoothed rate is never negative. *)
Theorem rate_never_negative (cfg : Config) (evs : list event) :
  (0 <= current_fps (video_stats (pipeline (run evs (boot cfg)))))%Q.
Proof.
  assert (H : forall w, (0 <= current_fps (video_stats (pipeline w)))%Q ->
                        (0 <= current_fps (video_stats (pipeline (run evs w))))%Q).
  { induction evs as [|e evs IH]; intros w Hw; [exact Hw|].
    cbn [run]. apply IH.
    destruct (is_arrival e) eqn:Ha.
    - destruct e; try discriminate; cbn [step]; unfold on_pipeline;
        cbn [pipeline set_pipeline].
      + apply video_on_frame_rate_nonneg. exact Hw.
      + unfold Pipeline.audio_on_frame.
        destruct (Deque.maxlen (audio_sample_queue (pipeline w))
                  <=? Deque.len (audio_sample_queue (pipeline w))); exact Hw.
    - rewrite step_video_stats by exact Ha. exact Hw. }
  apply H. simpl. apply Qle_refl.
Qed.


(** X11.  On a bridge that is not running, a conversion task that gets a
    turn converts nothing: no frame is taken from a queue, nothing is
    written to a device, no counter moves.  This covers the tasks left
    behind by an earlier [start], which [stop] does not cancel. *)
Theorem stopped_bridge_converts_nothing
        (id : task_id) (encode : Pipeline.encoder) (io : nat -> Gadget.dev_io)
        (w : world) :
  running (pipeline w) = false ->
  let out := Pipeline.resume id encode io w in
  fst out = Ret tt /\
  pipeline (snd out) = pipeline w /\
  devs (snd out) = devs w.
Proof.
  intros Hoff. unfold Pipeline.resume, Pipeline.finish. unfold_py. simpl.
  destruct (nth_error (loop w) id) as [[c [| |]]|]; simpl; auto.
  destruct c; rewrite Hoff; simpl; auto;
    destruct (negb (AUDIO_ENABLED (config (pipeline w)))); simpl; auto.
Qed.

Lemma stopped_bridge_converts_nothing_witness :
  running (pipeline (exec Pipeline.stop
     (exec (Pipeline.start all_codecs)
        (exec (Pipeline.start all_codecs) (boot default_config))))) = false /\
  (let w := exec Pipeline.stop
              (exec (Pipeline.start all_codecs)
                 (exec (Pipeline.start all_codecs) (boot default_config))) in
   let out := Pipeline.resume 0 two_packets (first_write_fails 0) w in
   fst out = Ret tt /\
   pipeline (snd out) = pipeline w /\
   devs (snd out) = devs w).
Proof.
  split; [reflexivity|].
  apply (stopped_bridge_converts_nothing 0 two_packets (first_write_fails 0)
           (exec Pipeline.stop
              (exec (Pipeline.start all_codecs)
                 (exec (Pipeline.start all_codecs) (boot default_config))))).
  reflexivity.
Defined.


Lemma gadget_stop_payload e g :
  dev_written (snd (Gadget.stop e g)) = dev_written g.
Proof.
  unfold Gadget.stop, Gadget._disable_gadget, Gadget.write_udc, Gadget.close_file.
  unfold_py.
  destruct g as [[cfg vd ad r conf] files nfd written udc]. simpl.
  destruct vd as [hv|]; destruct ad as [ha|];
    repeat (simpl;
            match goal with
            | |- context [Gadget.close_ok e ?h] => destruct (Gadget.close_ok e h)
            end);
    simpl; destruct conf; destruct (Gadget.geteuid e =? 0);
    destruct (Gadget.udc_write_ok e); reflexivity.
Qed.

Lemma iteration_without_gadget encode io w :
  usb_gadget (pipeline w) = None ->
  Pipeline.video_iteration encode io w = (Ret tt, w) /\
  Pipeline.audio_iteration encode io w = (Ret tt, w).
Proof.
  intros H. unfold Pipeline.video_iteration, Pipeline.audio_iteration.
  unfold_py. simpl. rewrite H. simpl. rewrite !orb_true_r. split; reflexivity.
Qed.

Lemma step_without_gadget e w :
  wires_gadget e = false ->
  usb_gadget (pipeline w) = None ->
  usb_gadget (pipeline (step e w)) = None /\
  dev_written (devs (step e w)) = dev_written (devs w).
Proof.
  intros Hne Hnone. destruct e; try discriminate Hne; cbn [step].
  - destruct (start_pipeline_fields av w) as (_ & _ & _ & Hg & Hd).
    rewrite Hg, Hd. auto.
  - unfold exec. rewrite stop_exact. simpl. auto.
  - simpl. auto.
  - unfold on_pipeline, Pipeline.remove_video_track. simpl.
    destruct (video_track (pipeline w)) as [t'|]; [destruct (t' =? t)|]; simpl; auto.
  - unfold on_pipeline, Pipeline.add_audio_track. simpl.
    destruct (negb (AUDIO_ENABLED (config (pipeline w)))); simpl; auto.
  - unfold on_pipeline, Pipeline.remove_audio_track. simpl.
    destruct (negb (AUDIO_ENABLED (config (pipeline w)))); simpl; auto.
    destruct (audio_track (pipeline w)) as [t'|]; [destruct (t' =? t)|]; simpl; auto.
  - unfold on_pipeline, Pipeline.video_on_frame. simpl.
    destruct (PIPELINE_BUFFER_SIZE (config (pipeline w))
              <=? Deque.len (video_frame_queue (pipeline w))); simpl; auto.
  - unfold on_pipeline, Pipeline.audio_on_frame. simpl.
    destruct (Deque.maxlen (audio_sample_queue (pipeline w))
              <=? Deque.len (audio_sample_queue (pipeline w))); simpl; auto.
  - unfold exec, Pipeline.resume, Pipeline.finish. unfold_py. simpl.
    destruct (iteration_without_gadget encode io w Hnone) as [Hv Ha].
    destruct (nth_error (loop w) id) as [[c [| |]]|]; simpl; auto.
    destruct c.
    + destruct (running (pipeline w)); simpl; auto. rewrite Hv. simpl. auto.
    + destruct (negb (AUDIO_ENABLED (config (pipeline w)))); simpl; auto.
      destruct (running (pipeline w)); simpl; auto. rewrite Ha. simpl. auto.
  - unfold exec. destruct (call_gadget_frame (Gadget.start envs) w) as [Hp _].
    rewrite Hp. split; [exact Hnone|].
    unfold call_gadget.
    destruct (start_spec envs (devs w)) as (g' & H & (_ & Hw) & _).
    rewrite H. simpl. exact Hw.
  - unfold exec. destruct (call_gadget_frame (Gadget.stop e) w) as [Hp _].
    rewrite Hp. split; [exact Hnone|].
    unfold call_gadget. pose proof (gadget_stop_payload e (devs w)) as Hw.
    destruct (Gadget.stop e (devs w)) as [r g']. simpl in *. exact Hw.
Qed.

Lemma run_without_gadget evs : forall w,
  forallb (fun e => negb (wires_gadget e)) evs = true ->
  usb_gadget (pipeline w) = None ->
  usb_gadget (pipeline (run evs w)) = None /\
  dev_written (devs (run evs w)) = dev_written (devs w).
Proof.
  induction evs as [|e evs IH]; intros w Hall Hnone; [auto|].
  cbn [forallb] in Hall. apply andb_true_iff in Hall. destruct Hall as [He Hall].
  apply negb_true_iff in He.
  destruct (step_without_gadget e w He Hnone) as [Hn Hw].
  cbn [run]. destruct (IH (step e w) Hall Hn) as [Hn' Hw'].
  split; [exact Hn'|congruence].
Qed.

(** X12.  The application starts the gadget and the bridge but never
    hands the gadget to the bridge.  After its start, whatever the
    transport delivers and however often the conversion tasks run, as
    long as nobody calls [set_usb_gadget] the bridge has no sink and not
    one byte has been written to a device node. *)
Theorem unwired_bridge_writes_nothing
        (cfg : Config) (envs : nat -> Gadget.env) (av : string -> bool)
        (evs : list event) :
  forallb (fun e => negb (wires_gadget e)) evs = true ->
  let w := run (app_start envs av ++ evs) (boot cfg) in
  usb_gadget (pipeline w) = None /\
  dev_written (devs w) = [].
Proof.
  intros Hall w.
  assert (Hall' : forallb (fun e => negb (wires_gadget e))
                          (app_start envs av ++ evs) = true).
  { rewrite forallb_app, Hall. reflexivity. }
  destruct (run_without_gadget (app_start envs av ++ evs) (boot cfg) Hall' eq_refl)
    as [Hn Hw].
  split; [exact Hn|exact Hw].
Qed.

Lemma unwired_bridge_writes_nothing_witness :
  forallb (fun e => negb (wires_gadget e))
          [AddVideoTrack 1; VideoFrame 0 (10 # 1);
           Resume 0 two_packets (first_write_fails 1)] = true /\
  (let w := run (app_start (fun _ => healthy_env) all_codecs
                 ++ [AddVideoTrack 1; VideoFrame 0 (10 # 1);
                     Resume 0 two_packets (first_write_fails 1)])
                (boot default_config) in
   usb_gadget (pipeline w) = None /\
   dev_written (devs w) = []).
Proof.
  split; [reflexivity|].
  apply (unwired_bridge_writes_nothing default_config (fun _ => healthy_env)
           all_codecs
           [AddVideoTrack 1; VideoFrame 0 (10 # 1);
            Resume 0 two_packets (first_write_fails 1)]).
  reflexivity.
Defined.


(** * Further properties of the transport's handlers *)

(** X13.  The transport registers the relay's proxy of a track but, when
    the track ends, asks the bridge to remove the track itself.  The two
    are different objects, so the ended handler changes nothing: the
    proxy stays registered on the bridge. *)
Theorem ended_track_stays_registered
        (k : kind) (t proxy : track) (p : MediaPipeline) :
  proxy <> t ->
  let p1 := on_track k proxy p in
  on_ended k t p1 = p1 /\
  (match k with
   | Video => True
   | Audio => AUDIO_ENABLED (config p) = true
   end -> registration k p1 = Some proxy).
Proof.
  intros Hne p1. apply Nat.eqb_neq in Hne. unfold p1, on_ended, on_track, detach.
  destruct k.
  - unfold Pipeline.remove_video_track, Pipeline.add_video_track. simpl.
    rewrite Hne. split; [reflexivity|]. intros _. reflexivity.
  - unfold Pipeline.remove_audio_track, Pipeline.add_audio_track.
    destruct (AUDIO_ENABLED (config p)) eqn:Ha; simpl.
    + rewrite Ha. simpl. rewrite Hne. split; [reflexivity|]. intros _. reflexivity.
    + rewrite Ha. simpl. split; [reflexivity|]. intros H. discriminate H.
Qed.

Lemma ended_track_stays_registered_witness :
  2 <> 1 /\
  (let p1 := on_track Video 2 (pipeline (boot default_config)) in
   on_ended Video 1 p1 = p1 /\
   (True -> registration Video p1 = Some 2)).
Proof.
  split; [discriminate|].
  apply (ended_track_stays_registered Video 1 2 (pipeline (boot default_config))).
  discriminate.
Defined.
